(** * Order management backend: controllers, validation middleware, routes

    A shallow embedding of [backend/controllers/orderController.js],
    [backend/middleware/valdation.js] and [backend/routes/orderRoutes.js],
    with the properties of the order lifecycle proved over it.

    Layout:
    - [Js]       the JavaScript values and built-ins the handlers rely on;
    - [Validator] the express-validator checks used by the middleware;
    - the data model (orders, requests, responses, the order collection);
    - the controllers and routes;
    - the theorems. *)

From Stdlib Require Import ZArith NArith Ascii String.
From stdpp Require Import gmap strings list sorting.

(** ** JavaScript values and built-ins *)

Module Js.

(** Numbers.  A finite number is written as a decimal
    [(-1)^neg * m * 10^e] (every double is such a decimal); [NaN] and the
    two infinities are separate.  What [parseInt] and [parseFloat] read
    from a string is the double nearest to the numeral ([nearest], round
    to nearest, ties to even, with gradual underflow), written out as its
    exact decimal.  A number of the body is the double [JSON.parse] made,
    written with the digits [Number::toString] gives it; [round] keeps it
    within the range of binary64. *)
Inductive number :=
  | NaN
  | Inf (neg : bool)
  | Fin (neg : bool) (m : N) (e : Z).

Definition zero : number := Fin false 0 0.
Definition one : number := Fin false 1 0.
Definition of_Z (z : Z) : number := Fin (z <? 0)%Z (Z.abs_N z) 0.

Definition signed (neg : bool) (z : Z) : Z := if neg then (- z)%Z else z.

(** [m * 10^e] as an integer number of units [10^k], for [k <= e]. *)
Definition scaled (neg : bool) (m : N) (e k : Z) : Z :=
  signed neg (Z.of_N m * 10 ^ (e - k))%Z.

(** [x < y] and [x <= y]; any comparison with [NaN] is false. *)
Definition ltb (x y : number) : bool :=
  match x, y with
  | NaN, _ | _, NaN => false
  | Inf a, Inf b => a && negb b
  | Inf a, Fin _ _ _ => a
  | Fin _ _ _, Inf b => negb b
  | Fin a m e, Fin b n f =>
      let k := Z.min e f in (scaled a m e k <? scaled b n f k)%Z
  end.

Definition leb (x y : number) : bool :=
  match x, y with
  | NaN, _ | _, NaN => false
  | Inf a, Inf b => a || negb b
  | Inf a, Fin _ _ _ => a
  | Fin _ _ _, Inf b => negb b
  | Fin a m e, Fin b n f =>
      let k := Z.min e f in (scaled a m e k <=? scaled b n f k)%Z
  end.

(** [Number.isNaN]. *)
Definition isNaN (x : number) : bool :=
  match x with NaN => true | _ => false end.

(** [Number.isFinite]. *)
Definition finite (x : number) : bool :=
  match x with Fin _ _ _ => true | _ => false end.

(** [m * 10^e <= 2^-1075]: at most half the least positive double. *)
Definition underflows (m : N) (e : Z) : bool :=
  if (0 <=? e)%Z then (m =? 0)%N
  else (Z.of_N m * 2 ^ 1075 <=? 10 ^ (- e))%Z.

(** [m * 10^e >= 2^1024 - 2^970]: at least half-way between the greatest
    double and [2^1024]. *)
Definition overflows (m : N) (e : Z) : bool :=
  if (0 <=? e)%Z then (2 ^ 1024 - 2 ^ 970 <=? Z.of_N m * 10 ^ e)%Z
  else ((2 ^ 1024 - 2 ^ 970) * 10 ^ (- e) <=? Z.of_N m)%Z.

(** The range of binary64, under round-to-nearest, ties to even. *)
Definition round (x : number) : number :=
  match x with
  | Fin neg m e =>
      if underflows m e then Fin neg 0 0
      else if overflows m e then Inf neg
      else x
  | _ => x
  end.

(** The quotient [q] of a division by [d] with remainder [r], rounded to
    nearest, ties to even. *)
Definition half_even (q r d : N) : N :=
  if (d <? 2 * r)%N || ((2 * r =? d)%N && N.odd q) then (q + 1)%N else q.

(** The double nearest to the integer [m]: [m] itself up to 53 bits,
    else its 53 leading bits, rounded. *)
Definition nearest_integer (m : N) : N :=
  if (N.size m <=? 53)%N then m
  else
    let d := (2 ^ (N.size m - 53))%N in
    (half_even (m / d) (m mod d) d * d)%N.

(** The double nearest to [m / 10^k], for [m > 0], as [(q, s)] standing
    for [q * 2^(-s)]: [q] has 53 bits, or fewer at the least exponent
    ([s = 1074], the subnormal doubles). *)
Definition nearest_fraction (m k : N) : N * Z :=
  let den := (10 ^ k)%N in
  let at_scale (s : Z) : N * N :=
    if (0 <=? s)%Z then ((m * 2 ^ Z.to_N s)%N, den)
    else (m, (den * 2 ^ Z.to_N (- s))%N) in
  let s0 := (53 + Z.of_N (N.size den) - Z.of_N (N.size m))%Z in
  let s1 :=
    let '(n, d) := at_scale s0 in
    if (2 ^ 53 <=? n / d)%N then (s0 - 1)%Z else s0 in
  let s := Z.min s1 1074 in
  let '(n, d) := at_scale s in
  (half_even (n / d) (n mod d) d, s).

(** [m * 10^e] with the trailing zeros of [m] moved into a negative [e]. *)
Fixpoint strip_zeros (fuel : nat) (m : N) (e : Z) : N * Z :=
  match fuel with
  | O => (m, e)
  | S f =>
      if (e <? 0)%Z && (m mod 10 =? 0)%N
      then strip_zeros f (m / 10)%N (e + 1)%Z
      else (m, e)
  end.

(** [q * 2^(-s)] as a decimal: an integer with exponent 0, a fraction
    with no trailing zero. *)
Definition of_binary (neg : bool) (q : N) (s : Z) : number :=
  if (s <=? 0)%Z then Fin neg (q * 2 ^ Z.to_N (- s)) 0
  else
    let '(m, e) := strip_zeros (Z.to_nat s) (q * 5 ^ Z.to_N s)%N (- s)%Z in
    Fin neg m e.

(** The double a numeral [m * 10^e] reads as. *)
Definition nearest (neg : bool) (m : N) (e : Z) : number :=
  if underflows m e then Fin neg 0 0
  else if overflows m e then Inf neg
  else if (0 <=? e)%Z then Fin neg (nearest_integer (m * 10 ^ Z.to_N e)) 0
  else let '(q, s) := nearest_fraction m (Z.to_N (- e)) in of_binary neg q s.

(** ToBoolean on numbers: [NaN], [0] and [-0] are falsy. *)
Definition truthy_number (x : number) : bool :=
  match x with
  | NaN => false
  | Inf _ => true
  | Fin _ m _ => negb (m =? 0)%N
  end.

(** *** Characters and strings

    A string is a sequence of code units below 256. *)

Definition is_space (c : ascii) : bool :=
  let n := N_of_ascii c in
  ((9 <=? n) && (n <=? 13) || (n =? 32) || (n =? 160))%N.

Definition lower_char (c : ascii) : ascii :=
  let n := N_of_ascii c in
  if ((65 <=? n) && (n <=? 90))%N then ascii_of_N (n + 32)
  else if ((192 <=? n) && (n <=? 222) && negb (n =? 215))%N then ascii_of_N (n + 32)
  else c.

(** [String.prototype.toLowerCase]. *)
Fixpoint toLowerCase (s : string) : string :=
  match s with
  | EmptyString => EmptyString
  | String c r => String (lower_char c) (toLowerCase r)
  end.

Definition is_empty (s : string) : bool :=
  match s with EmptyString => true | _ => false end.

Fixpoint trimStart (s : string) : string :=
  match s with
  | EmptyString => EmptyString
  | String c r => if is_space c then trimStart r else s
  end.

(** Drops the longest suffix whose characters all satisfy [p]. *)
Fixpoint drop_end (p : ascii -> bool) (s : string) : string :=
  match s with
  | EmptyString => EmptyString
  | String c r =>
      let r' := drop_end p r in
      if p c && is_empty r' then EmptyString else String c r'
  end.

Definition trimEnd (s : string) : string := drop_end is_space s.

(** [String.prototype.trim]. *)
Definition trim (s : string) : string := trimEnd (trimStart s).

(** *** Reading numbers from strings *)

Definition digit_val (c : ascii) : option N :=
  let n := N_of_ascii c in
  if ((48 <=? n) && (n <=? 57))%N then Some (n - 48)%N else None.

(** The longest prefix of decimal digits, and what follows it. *)
Fixpoint span_digits (s : string) : list N * string :=
  match s with
  | EmptyString => ([], EmptyString)
  | String c r =>
      match digit_val c with
      | Some d => let '(ds, rest) := span_digits r in (d :: ds, rest)
      | None => ([], s)
      end
  end.

Definition digits_value (ds : list N) : N :=
  fold_left (fun acc d => 10 * acc + d)%N ds 0%N.

Definition read_sign (s : string) : bool * string :=
  match s with
  | String "-" r => (true, r)
  | String "+" r => (false, r)
  | _ => (false, s)
  end.

(** [parseInt(string, 10)]: leading white space, a sign, then the longest
    run of decimal digits; [NaN] when there is none. *)
Definition parseInt_string (s : string) : number :=
  let '(neg, r) := read_sign (trimStart s) in
  match span_digits r with
  | ([], _) => NaN
  | (ds, _) => nearest neg (digits_value ds) 0
  end.

(** The optional exponent part [e[+-]digits]; ignored unless complete. *)
Definition read_exponent (s : string) : Z :=
  match s with
  | String c t =>
      if bool_decide (c = "e"%char) || bool_decide (c = "E"%char) then
        let '(neg, u) := read_sign t in
        match span_digits u with
        | ([], _) => 0%Z
        | (ds, _) => signed neg (Z.of_N (digits_value ds))
        end
      else 0%Z
  | EmptyString => 0%Z
  end.

(** The longest prefix that is an unsigned decimal literal: [Infinity],
    or digits with an optional fraction and exponent (at least one digit
    before or after the point); [NaN] when there is none. *)
Definition decimal_literal (neg : bool) (r : string) : number :=
  if String.prefix "Infinity" r then Inf neg
  else
    let '(ip, r1) := span_digits r in
    let '(fp, r2) :=
      match r1 with
      | String "." t => span_digits t
      | _ => ([], r1)
      end in
    match ip ++ fp with
    | [] => NaN
    | ds => nearest neg (digits_value ds) (read_exponent r2 - Z.of_nat (length fp))
    end.

(** [parseFloat(string)]: leading white space, a sign, then the longest
    prefix that is a decimal literal. *)
Definition parseFloat_string (s : string) : number :=
  let '(neg, r) := read_sign (trimStart s) in decimal_literal neg r.

(** *** Writing numbers *)

Definition digit_char (d : N) : ascii := ascii_of_N (48 + d).

Fixpoint digits_aux (fuel : nat) (m : N) (acc : string) : string :=
  match fuel with
  | O => acc
  | S f =>
      if (m =? 0)%N then acc
      else digits_aux f (m / 10)%N (String (digit_char (m mod 10)) acc)
  end.

(** The decimal digits of [m], most significant first. *)
Definition digits_of (m : N) : string :=
  if (m =? 0)%N then "0" else digits_aux (N.size_nat m) m "".

Fixpoint zeros (n : nat) : string :=
  match n with O => EmptyString | S k => String "0" (zeros k) end.

(** Number::toString (radix 10): with [k] significant digits [ds] and
    the decimal point after the [n]-th of them, plain notation for
    [-6 < n <= 21] and exponent notation otherwise. *)
Definition number_toString (x : number) : string :=
  match x with
  | NaN => "NaN"
  | Inf neg => (if neg then "-" else "") +:+ "Infinity"
  | Fin neg m e =>
      if (m =? 0)%N then "0"
      else
        let all := digits_of m in
        let n := (Z.of_nat (String.length all) + e)%Z in
        let ds := drop_end (fun c => bool_decide (c = "0"%char)) all in
        let k := Z.of_nat (String.length ds) in
        (if neg then "-" else "") +:+
        (if ((k <=? n) && (n <=? 21))%Z then
           ds +:+ zeros (Z.to_nat (n - k))
         else if ((0 <? n) && (n <=? 21))%Z then
           substring 0 (Z.to_nat n) ds +:+ "." +:+
           substring (Z.to_nat n) (Z.to_nat (k - n)) ds
         else if ((-6 <? n) && (n <=? 0))%Z then
           "0." +:+ zeros (Z.to_nat (- n)) +:+ ds
         else
           let ex := (n - 1)%Z in
           let exs := (if (ex <? 0)%Z then "-" else "+") +:+ digits_of (Z.abs_N ex) in
           match ds with
           | EmptyString => EmptyString
           | String d EmptyString => String d ("e" +:+ exs)
           | String d rest => String d ("." +:+ rest +:+ "e" +:+ exs)
           end)
  end.

(** *** Values

    The scalar JSON values a request field can hold, and [undefined] for
    an absent field.  A number of the body is the double [JSON.parse]
    made of it, written with the digits [Number::toString] gives it;
    [Num x] is read through [round].  An array or an object in the place
    of a scalar is outside this type: what is proved about a field is
    proved for its scalar values. *)
Inductive value :=
  | Undefined
  | Null
  | Bool (b : bool)
  | Num (x : number)
  | Str (s : string).

#[global] Instance number_eq_dec : EqDecision number.
Proof. solve_decision. Defined.

#[global] Instance value_eq_dec : EqDecision value.
Proof. solve_decision. Defined.

(** ToBoolean. *)
Definition truthy (v : value) : bool :=
  match v with
  | Undefined | Null => false
  | Bool b => b
  | Num x => truthy_number (round x)
  | Str s => negb (is_empty s)
  end.

(** [a || b]. *)
Definition or (a b : value) : value := if truthy a then a else b.

(** ToString. *)
Definition toString (v : value) : string :=
  match v with
  | Undefined => "undefined"
  | Null => "null"
  | Bool true => "true"
  | Bool false => "false"
  | Num x => number_toString (round x)
  | Str s => s
  end.

Definition parseFloat (v : value) : number := parseFloat_string (toString v).
Definition parseInt (v : value) : number := parseInt_string (toString v).

(** [x || y] on numbers. *)
Definition or_number (x y : number) : number := if truthy_number x then x else y.

(** The integer a finite integral number stands for (what [parseInt]
    returns is such a number, [NaN] or an infinity). *)
Definition to_Z (x : number) : Z :=
  match x with
  | Fin neg m e => signed neg (Z.of_N m * 10 ^ e)%Z
  | _ => 0%Z
  end.

End Js.

(** ** express-validator checks

    The standard validators work on the string form of the field.  (Of
    an array they check every element; arrays are outside [Js.value].) *)

Module Validator.

(** The string a standard validator is run on: empty for [undefined],
    [null] and [NaN], [String(value)] otherwise. *)
Definition stringify (v : Js.value) : string :=
  match v with
  | Js.Undefined | Js.Null | Js.Num Js.NaN => ""
  | _ => Js.toString v
  end.

(** The integer a string denotes when it matches [^[-+]?[0-9]+$]. *)
Definition int_literal (s : string) : option Z :=
  let '(neg, r) := Js.read_sign s in
  match Js.span_digits r with
  | ([], _) => None
  | (ds, EmptyString) => Some (Js.signed neg (Z.of_N (Js.digits_value ds)))
  | (_, String _ _) => None
  end.

(** [isInt({ min })]: an integer literal whose value is at least [min]. *)
Definition isInt (min : Z) (v : Js.value) : bool :=
  match int_literal (stringify v) with
  | Some z => (min <=? z)%Z
  | None => false
  end.

(** [isIn(allowed)]. *)
Definition isIn (allowed : list string) (v : Js.value) : bool :=
  bool_decide (stringify v ∈ allowed).

End Validator.

(** ** Data model *)

(** Document ids are strings that the object-document mapper casts to
    an ObjectId (24 hexadecimal digits); a query by an id it cannot cast
    is rejected with a CastError.  Dates are milliseconds. *)
Abbreviation ObjectId := string (only parsing).
Abbreviation Date := Z (only parsing).

(** A line item as posted, field by field ([undefined] when absent). *)
Record RawItem := {
  raw_menuItemId : Js.value;
  raw_name : Js.value;
  raw_price : Js.value;
  raw_quantity : Js.value;
  raw_qty : Js.value;
  raw_note : Js.value
}.

(** An element of the posted [items] array: [null], or an object with
    its fields.  (To [createOrder] a number, boolean or string in the
    place of an object reads as an object with every field absent.) *)
Inductive Element :=
  | Nullish
  | Obj (it : RawItem).

(** The [items] field of the body: absent, a value that is not an array
    ([null], a scalar or an object), or an array.  (Of an object the
    wildcard chains of [validateOrder] also visit the properties; the
    errors they add to "Items must be an array" are not modelled.) *)
Inductive ItemsField :=
  | ItemsAbsent
  | ItemsNotArray
  | ItemsArray (l : list Element).

(** The free-form [meta] field: absent or falsy, or an object. *)
Definition MetaDoc := list (string * Js.value).
Inductive MetaField :=
  | MetaFalsy
  | MetaObject (m : MetaDoc).

(** A normalized line item, as stored in the order. *)
Record Item := {
  menuItemId : Js.value;
  name : string;
  price : Js.number;
  qty : Js.number;
  note : Js.value
}.

Record Payment := {
  pay_status : string;
  pay_method : option string;
  paidAt : option Date;
  refundedAt : option Date
}.

Record User := {
  user_id : ObjectId;
  role : string
}.

(** The request, as the handlers read it: [req.user], [req.params.id],
    the fields of [req.body] and of [req.query]. *)
Record Request := {
  user : option User;
  params_id : string;
  body_tableId : Js.value;
  body_items : ItemsField;
  body_meta : MetaField;
  body_status : Js.value;
  body_method : Js.value;
  query_tableId : option string;
  query_status : option string;
  query_page : option string;
  query_limit : option string
}.

(** What the surroundings supply during one request: the clock, the
    [_id] of a new document, the value [generateOrderNumber()] returns
    and whether [order.save()] resolves. *)
Record Env := {
  now : Date;
  fresh_id : ObjectId;
  order_number : string;
  save_ok : bool
}.

(** The parts of the repository and of its libraries that are not among
    the sources are taken as given: the totals type and
    [calculateOrderTotal] of [utils/helperUtils.js], the payment
    sub-record a new [Order] document starts with ([models/Order.js]),
    validator.js's [isMongoId] on the string form of a field, and
    Mongoose's cast of a string to an ObjectId with the message of the
    CastError it raises when the cast fails. *)
Class Helpers := {
  Totals : Type;
  calculateOrderTotal : list Item -> Totals;
  defaultPayment : Payment;
  isMongoId : string -> bool;
  castsToObjectId : string -> bool;
  castErrorMessage : string -> string
}.

(** How a query by [_id] ends: rejected by the cast of the id, or with
    its result. *)
Inductive Queried (A : Type) :=
  | CastError
  | Returned (a : A).
Arguments CastError {A}.
Arguments Returned {A} a.

Section Backend.

Context `{Helpers}.

Record Order := {
  tableId : Js.value;
  customerId : option ObjectId;
  orderNumber : string;
  items : list Item;
  totals : Totals;
  status : string;
  payment : Payment;
  meta : MetaDoc;
  createdAt : Date
}.

(** The order collection: documents by [_id]. *)
Abbreviation Store := (gmap string Order).

(** *** Responses *)

Inductive Data :=
  | NoData
  | Created (id : ObjectId) (number : string) (st : string) (tot : Totals) (at_ : Date)
  | StatusOf (id : ObjectId) (st : string)
  | PaymentOf (id : ObjectId) (pay : Payment) (st : string)
  | Page (orders : list (ObjectId * Order)) (page limit total pages : Z)
  | IdOf (id : ObjectId).

Record Response := {
  code : nat;
  success : bool;
  message : string;
  errors : list string;
  data : Data
}.

(** A handler answers, or throws to [asyncHandler]. *)
Inductive Outcome :=
  | Sent (r : Response)
  | Thrown (err : string).

Definition failure (c : nat) (msg : string) (errs : list string) : Response :=
  {| code := c; success := false; message := msg; errors := errs; data := NoData |}.

Definition ok (c : nat) (msg : string) (d : Data) : Response :=
  {| code := c; success := true; message := msg; errors := []; data := d |}.

(** *** The collection's operations *)

(** The fields a [$set] update writes. *)
Record SetDoc := {
  set_status : option string;
  set_payment_status : option string;
  set_payment_paidAt : option Date;
  set_payment_refundedAt : option Date;
  set_payment_method : option string
}.

Definition applySetPayment (u : SetDoc) (p : Payment) : Payment :=
  {| pay_status := default (pay_status p) (set_payment_status u);
     pay_method := match set_payment_method u with Some m => Some m | None => pay_method p end;
     paidAt := match set_payment_paidAt u with Some d => Some d | None => paidAt p end;
     refundedAt :=
       match set_payment_refundedAt u with Some d => Some d | None => refundedAt p end |}.

Definition applySet (u : SetDoc) (o : Order) : Order :=
  {| tableId := tableId o;
     customerId := customerId o;
     orderNumber := orderNumber o;
     items := items o;
     totals := totals o;
     status := default (status o) (set_status u);
     payment := applySetPayment u (payment o);
     meta := meta o;
     createdAt := createdAt o |}.

Definition setStatus (st : string) : SetDoc :=
  {| set_status := Some st; set_payment_status := None; set_payment_paidAt := None;
     set_payment_refundedAt := None; set_payment_method := None |}.

(** A query by [_id] first casts the id, and is rejected with a
    CastError when that fails.  The [_id] of a stored document casts, so
    the cast can fail only for an id that names no document. *)
Definition castError (id : ObjectId) (db : Store) : bool :=
  negb (castsToObjectId id) && bool_decide (db !! id = None).

(** [findById(id)]. *)
Definition findById (id : ObjectId) (db : Store) : Queried (option Order) :=
  if castError id db then CastError else Returned (db !! id).

(** [findOneAndUpdate({ _id: id, ...cond }, { $set: u }, { new: true })]:
    one atomic step that updates the document when it exists and
    satisfies [cond], and returns the updated document. *)
Definition findOneAndUpdate (id : ObjectId) (cond : Order -> bool) (u : SetDoc)
    (db : Store) : Queried (option Order) * Store :=
  if castError id db then (CastError, db)
  else
    match db !! id with
    | Some o =>
        if cond o then (Returned (Some (applySet u o)), <[id := applySet u o]> db)
        else (Returned None, db)
    | None => (Returned None, db)
    end.

(** [findByIdAndUpdate(id, { $set: u }, { new: true })]. *)
Definition findByIdAndUpdate (id : ObjectId) (u : SetDoc) (db : Store)
    : Queried (option Order) * Store :=
  findOneAndUpdate id (fun _ => true) u db.

(** [order.save()] of a new document: rejects when the surroundings say
    so or when the [_id] is taken. *)
Definition save (env : Env) (o : Order) (db : Store) : option Store :=
  if save_ok env && bool_decide (db !! fresh_id env = None)
  then Some (<[fresh_id env := o]> db)
  else None.

(** *** Helpers of [utils/] that are not among the sources *)

Definition orderStatuses : list string :=
  ["placed"; "preparing"; "ready"; "served"; "canceled"; "completed"].

(** Modelled from the spec: [isValidOrderStatus] of
    [utils/validationUtils.js] is not among the sources; the data model
    gives the status as one of placed, preparing, ready, served,
    canceled, completed. *)
Definition isValidOrderStatus (v : Js.value) : bool :=
  match v with
  | Js.Str s => bool_decide (s ∈ orderStatuses)
  | _ => false
  end.

(** [generateOrderNumber()] of [utils/helperUtils.js]: its result is
    drawn from the surroundings. *)
Definition generateOrderNumber (env : Env) : string := order_number env.

(** *** [createOrder] *)

Definition normalizeItem (it : RawItem) : Item :=
  {| menuItemId := raw_menuItemId it;
     name := Js.trim (Js.toString (Js.or (raw_name it) (Js.Str "")));
     price := Js.parseFloat (raw_price it);
     qty := Js.or_number (Js.parseInt (Js.or (raw_quantity it) (raw_qty it))) Js.one;
     note := Js.or (raw_note it) (Js.Str "") |}.

(** [items.map(...)]; reading a property of a [null] element throws. *)
Fixpoint normalizeItems (l : list Element) : option (list Item) :=
  match l with
  | [] => Some []
  | Nullish :: _ => None
  | Obj it :: rest =>
      match normalizeItems rest with
      | Some r => Some (normalizeItem it :: r)
      | None => None
      end
  end.

Definition index_text (i : nat) : string := Js.digits_of (N.of_nat i).

(** [it.name || `at index ${i}`]. *)
Definition item_label (i : nat) (it : Item) : string :=
  if Js.is_empty (name it) then "at index " +:+ index_text i else name it.

(** The body of the [forEach] that validates the normalized items. *)
Definition itemErrors (i : nat) (it : Item) : list string :=
  (if Js.is_empty (name it)
   then ["Item at index " +:+ index_text i +:+ " is missing a name"] else [])
  ++ (if Js.isNaN (price it) || Js.leb (price it) Js.zero
      then ["Item '" +:+ item_label i it +:+ "' has an invalid price"] else [])
  ++ (if Js.isNaN (qty it) || Js.ltb (qty it) Js.one
      then ["Item '" +:+ item_label i it +:+ "' has an invalid quantity"] else []).

Fixpoint validateItems (i : nat) (l : list Item) : list string :=
  match l with
  | [] => []
  | it :: rest => itemErrors i it ++ validateItems (S i) rest
  end.

(** [typeof tableId === 'string' ? tableId.trim() : tableId || null]. *)
Definition normalizeTableId (t : Js.value) : Js.value :=
  match t with
  | Js.Str s => Js.Str (Js.trim s)
  | _ => Js.or t Js.Null
  end.

Definition metaOf (m : MetaField) : MetaDoc :=
  match m with MetaFalsy => [] | MetaObject d => d end.

(** [new Order({...})]. *)
Definition newOrder (req : Request) (env : Env) (normalizedItems : list Item) : Order :=
  {| tableId := normalizeTableId (body_tableId req);
     customerId := match user req with Some u => Some (user_id u) | None => None end;
     orderNumber := generateOrderNumber env;
     items := normalizedItems;
     totals := calculateOrderTotal normalizedItems;
     status := "placed";
     payment := defaultPayment;
     meta := metaOf (body_meta req);
     createdAt := now env |}.

Definition noItems : Response :=
  failure 400 "Order must contain at least one item" [].

Definition createOrder (req : Request) (env : Env) (db : Store) : Outcome * Store :=
  match body_items req with
  | ItemsAbsent | ItemsNotArray | ItemsArray [] => (Sent noItems, db)
  | ItemsArray l =>
      match normalizeItems l with
      | None => (Thrown "TypeError", db)
      | Some normalizedItems =>
          let errs := validateItems 0 normalizedItems in
          if negb (length errs =? 0) then
            (Sent (failure 400 "Validation failed" errs), db)
          else
            let order := newOrder req env normalizedItems in
            match save env order db with
            | Some db' =>
                (Sent (ok 201 "Order placed successfully"
                         (Created (fresh_id env) (orderNumber order) (status order)
                                  (totals order) (createdAt order))), db')
            | None => (Sent (failure 500 "Failed to place order" []), db)
            end
      end
  end.

(** *** [updateOrderStatus] *)

Definition updateOrderStatus (req : Request) (db : Store) : Outcome * Store :=
  if negb (isValidOrderStatus (body_status req)) then
    (Sent (failure 400 "Invalid status" []), db)
  else
    let u := setStatus (Js.toString (body_status req)) in
    match findByIdAndUpdate (params_id req) u db with
    | (CastError, db') => (Thrown "CastError", db')
    | (Returned None, db') => (Sent (failure 404 "Order not found" []), db')
    | (Returned (Some updatedOrder), db') =>
        (Sent (ok 200 "Order status updated"
                 (StatusOf (params_id req) (status updatedOrder))), db')
    end.

(** *** [updateOrderPayment] *)

Definition validPaymentStatuses : list string :=
  ["pending"; "paid"; "failed"; "refunded"].

(** [s.toLowerCase().trim()]; calling it on anything but a string throws. *)
Definition lowerTrim (v : Js.value) : option string :=
  match v with
  | Js.Str s => Some (Js.trim (Js.toLowerCase s))
  | _ => None
  end.

(** [join(', ')]. *)
Fixpoint join (l : list string) : string :=
  match l with
  | [] => ""
  | [x] => x
  | x :: rest => x +:+ ", " +:+ join rest
  end.

(** The [$set] document [updateData], given the status of the order
    that [findById] returned. *)
Definition updateData (pst : string) (method : option string) (current : string)
    (env : Env) : SetDoc :=
  {| set_status :=
       if bool_decide (pst = "paid") && bool_decide (current = "served")
       then Some "completed" else None;
     set_payment_status := Some pst;
     set_payment_paidAt := if bool_decide (pst = "paid") then Some (now env) else None;
     set_payment_refundedAt :=
       if bool_decide (pst = "paid") then None
       else if bool_decide (pst = "refunded") then Some (now env) else None;
     set_payment_method := method |}.

(** The answer of the [catch] block, with [err.message]. *)
Definition paymentFailed (msg : string) : Response :=
  failure 500 "Failed to update payment" [msg].

Definition updateOrderPayment (req : Request) (env : Env) (db : Store)
    : Outcome * Store :=
  match lowerTrim (body_status req) with
  | None => (Thrown "TypeError", db)
  | Some pst =>
      let method :=
        if Js.truthy (body_method req) then
          match lowerTrim (body_method req) with
          | Some m => Some (Some m)
          | None => None
          end
        else Some None in
      match method with
      | None => (Thrown "TypeError", db)
      | Some method =>
          if negb (bool_decide (pst ∈ validPaymentStatuses)) then
            (Sent (failure 400 "Invalid payment status"
                     ["Payment status must be one of: " +:+ join validPaymentStatuses]), db)
          else
            match findById (params_id req) db with
            | CastError => (Sent (paymentFailed (castErrorMessage (params_id req))), db)
            | Returned None => (Sent (failure 404 "Order not found" []), db)
            | Returned (Some order) =>
                let method' :=
                  match method with
                  | Some m => if Js.is_empty m then None else Some m
                  | None => None
                  end in
                match findOneAndUpdate (params_id req) (fun _ => true)
                        (updateData pst method' (status order) env) db with
                | (Returned (Some updatedOrder), db') =>
                    (Sent (ok 200 "Order payment updated successfully"
                             (PaymentOf (params_id req) (payment updatedOrder)
                                        (status updatedOrder))), db')
                | (Returned None, db') =>
                    (Sent (paymentFailed "Cannot read properties of null (reading '_id')"),
                     db')
                | (CastError, db') =>
                    (Sent (paymentFailed (castErrorMessage (params_id req))), db')
                end
            end
      end
  end.

(** *** [listOrders] *)

(** The filter object [query]. *)
Record Query := {
  q_tableId : option string;
  q_status : option string;
  q_customerId : option ObjectId
}.

Definition matches (q : Query) (o : Order) : bool :=
  match q_tableId q with
  | Some t => bool_decide (tableId o = Js.Str t)
  | None => true
  end
  && match q_status q with
     | Some st => bool_decide (status o = st)
     | None => true
     end
  && match q_customerId q with
     | Some c => bool_decide (customerId o = Some c)
     | None => true
     end.

(** [Order.find(query)], in the collection's own order. *)
Definition find (q : Query) (db : Store) : list (ObjectId * Order) :=
  filter (fun d => matches q d.2 = true) (map_to_list db).

(** [Order.countDocuments(query)]. *)
Definition countDocuments (q : Query) (db : Store) : Z :=
  Z.of_nat (length (find q db)).

Fixpoint insertNewest (d : ObjectId * Order) (l : list (ObjectId * Order))
    : list (ObjectId * Order) :=
  match l with
  | [] => [d]
  | d' :: rest =>
      if (createdAt d'.2 <=? createdAt d.2)%Z then d :: l
      else d' :: insertNewest d rest
  end.

(** [.sort({ createdAt: -1 })]. *)
Definition sortNewestFirst (l : list (ObjectId * Order)) : list (ObjectId * Order) :=
  foldr insertNewest [] l.

(** A query-string parameter as a value. *)
Definition param (p : option string) : Js.value :=
  match p with Some s => Js.Str s | None => Js.Undefined end.

(** [parseInt(p, 10) || d], and the integer it stands for when it is
    finite. *)
Definition paramNumber (p : option string) (d : Z) : Js.number :=
  Js.or_number (Js.parseInt (param p)) (Js.of_Z d).

Definition intParam (p : option string) (d : Z) : Z := Js.to_Z (paramNumber p d).

(** What the database does not take as [skip] and [limit]: a number
    that is not finite ([page] or [limit] was read as an infinity, and
    [skip] is then an infinity or [NaN]), and a negative [skip]. *)
Definition refusedPage (req : Request) : bool :=
  negb (Js.finite (paramNumber (query_page req) 1)
        && Js.finite (paramNumber (query_limit req) 20))
  || ((intParam (query_page req) 1 - 1) * intParam (query_limit req) 20 <? 0)%Z.

(** [Math.ceil(a / b)], for [b <> 0]. *)
Definition ceilDiv (a b : Z) : Z := (- ((- a) / b))%Z.

(** The filter [listOrders] builds for an authenticated user. *)
Definition listQuery (u : User) (req : Request) : Query :=
  if bool_decide (role u ∈ ["staff"; "admin"]) then
    {| q_tableId :=
         if Js.truthy (param (query_tableId req)) then query_tableId req else None;
       q_status :=
         if Js.truthy (param (query_status req))
            && isValidOrderStatus (param (query_status req))
         then query_status req else None;
       q_customerId := None |}
  else
    {| q_tableId := None; q_status := None; q_customerId := Some (user_id u) |}.

(** The database refuses such a [skip] or [limit] (the [catch] answers
    500) and reads a negative [limit] as its absolute value; [populate]
    joins documents of other collections and is not modelled. *)
Definition listOrders (req : Request) (db : Store) : Outcome * Store :=
  match user req with
  | None => (Sent (failure 401 "Authentication required to list orders" []), db)
  | Some u =>
      let query := listQuery u req in
      let page := intParam (query_page req) 1 in
      let limit := intParam (query_limit req) 20 in
      let skip := ((page - 1) * limit)%Z in
      let total := countDocuments query db in
      if refusedPage req then
        (Sent (failure 500 "Failed to retrieve orders" []), db)
      else
        let orders :=
          take (Z.to_nat (Z.abs limit))
            (drop (Z.to_nat skip) (sortNewestFirst (find query db))) in
        (Sent (ok 200 "Orders retrieved"
                 (Page orders page limit total (ceilDiv total limit))), db)
  end.

(** *** [cancelOrder] *)

Definition cancelable (o : Order) : bool :=
  negb (bool_decide (status o ∈ ["completed"; "canceled"])).

Definition cancelOrder (req : Request) (db : Store) : Outcome * Store :=
  match findOneAndUpdate (params_id req) cancelable (setStatus "canceled") db with
  | (CastError, db') => (Thrown "CastError", db')
  | (Returned None, db') =>
      (Sent (failure 404 "Order not found or cannot be canceled" []), db')
  | (Returned (Some updatedOrder), db') =>
      (Sent (ok 200 "Order canceled" (IdOf (params_id req))), db')
  end.

(** *** Validation middleware *)

Definition field (f : RawItem -> Js.value) (e : Element) : Js.value :=
  match e with Nullish => Js.Undefined | Obj it => f it end.

Definition check (passes : bool) (msg : string) : list string :=
  if passes then [] else [msg].

(** The errors the [validateOrder] chains collect, chain by chain; a
    wildcard chain runs once per element of the array. *)
Definition validateOrder (req : Request) : list string :=
  (match body_tableId req with
   | Js.Undefined => []
   | t => check (isMongoId (Validator.stringify t)) "Invalid table ID"
   end)
  ++ (match body_items req with
      | ItemsArray _ => []
      | _ => ["Items must be an array"]
      end)
  ++ (match body_items req with
      | ItemsArray l =>
          flat_map (fun e => check (isMongoId (Validator.stringify (field raw_menuItemId e)))
                               "Invalid menu item ID") l
          ++ flat_map (fun e => check (Validator.isInt 1 (field raw_quantity e))
                                  "Quantity must be at least 1") l
      | _ => []
      end).

Definition validateOrderStatus (req : Request) : list string :=
  check (Validator.isIn orderStatuses (body_status req)) "Invalid order status".

Definition validateOrderPayment (req : Request) : list string :=
  check (Validator.isIn validPaymentStatuses (body_status req)) "Invalid payment status".

(** [param('id').isMongoId()]. *)
Definition validateIdParam (req : Request) : list string :=
  check (isMongoId (params_id req)) "Invalid order ID".

(** [handleValidationErrors]: answers 400 when the chains before it
    collected an error, calls [next()] otherwise. *)
Definition handleValidationErrors (errs : list string) : option Response :=
  if negb (length errs =? 0) then Some (failure 400 "Validation failed" errs)
  else None.

(** Modelled from the spec: [authenticate] of
    [middleware/authMiddleware.js] is not among the sources; an
    unauthenticated request is answered 401 (the message is not given). *)
Definition authenticate (req : Request) : option Response :=
  match user req with
  | Some _ => None
  | None => Some (failure 401 "Authentication required" [])
  end.

(** Modelled from the spec: [requireStaff] of
    [middleware/roleMiddleware.js] is not among the sources; status and
    payment updates are restricted to staff and admin, others are
    answered 403 (the message is not given). *)
Definition requireStaff (req : Request) : option Response :=
  match user req with
  | Some u =>
      if bool_decide (role u ∈ ["staff"; "admin"]) then None
      else Some (failure 403 "Access denied" [])
  | None => Some (failure 401 "Authentication required" [])
  end.

(** *** Routes: the middleware of [orderRoutes.js], in order *)

Definition before (m : option Response) (next : Store -> Outcome * Store)
    (db : Store) : Outcome * Store :=
  match m with
  | Some r => (Sent r, db)
  | None => next db
  end.

(** [router.post('/', validateOrder, handleValidationErrors, createOrder)]. *)
Definition postOrder (req : Request) (env : Env) : Store -> Outcome * Store :=
  before (handleValidationErrors (validateOrder req)) (createOrder req env).

(** [router.get('/', authenticate, listOrders)]. *)
Definition getOrders (req : Request) : Store -> Outcome * Store :=
  before (authenticate req) (listOrders req).

(** [router.patch('/:id/status', ...)]. *)
Definition patchStatus (req : Request) : Store -> Outcome * Store :=
  before (authenticate req)
    (before (requireStaff req)
       (before (handleValidationErrors (validateOrderStatus req))
          (updateOrderStatus req))).

(** [router.patch('/:id/payment', ...)]. *)
Definition patchPayment (req : Request) (env : Env) : Store -> Outcome * Store :=
  before (authenticate req)
    (before (requireStaff req)
       (before (handleValidationErrors (validateOrderPayment req))
          (updateOrderPayment req env))).

(** [router.post('/:id/cancel', ...)]. *)
Definition postCancel (req : Request) : Store -> Outcome * Store :=
  before (authenticate req)
    (before (handleValidationErrors (validateIdParam req))
       (cancelOrder req)).

End Backend.

Abbreviation Store := (gmap string Order).

(** ** Vocabulary of the properties *)

Fixpoint all_chars (p : ascii -> bool) (s : string) : bool :=
  match s with
  | EmptyString => true
  | String c r => p c && all_chars p r
  end.

(** The characters the string form of a number is made of: digits,
    sign, point, exponent mark, and the letters of NaN and Infinity. *)
Definition number_char (c : ascii) : bool :=
  match Js.digit_val c with
  | Some _ => true
  | None => bool_decide (c ∈ ["-"; "+"; "."; "e"; "N"; "a"; "I"; "n"; "f"; "i"; "t"; "y"]%char)
  end.

(** A name that is missing, empty or made of white space only. *)
Definition blankName (v : Js.value) : bool :=
  match v with
  | Js.Undefined | Js.Null => true
  | Js.Str s => all_chars Js.is_space s
  | _ => false
  end.

(** What follows the optional exponent part of a numeral. *)
Definition after_exponent (s : string) : string :=
  match s with
  | String c t =>
      if bool_decide (c = "e"%char) || bool_decide (c = "E"%char) then
        let '(_, u) := Js.read_sign t in
        match Js.span_digits u with
        | ([], _) => s
        | (_, rest) => rest
        end
      else s
  | EmptyString => EmptyString
  end.

(** A string that, white space at its ends apart, is a decimal numeral
    from end to end: a sign, then [Infinity] or digits with an optional
    fraction and exponent. *)
Definition numericText (s : string) : bool :=
  let '(_, r) := Js.read_sign (Js.trim s) in
  bool_decide (r = "Infinity")
  || let '(ip, r1) := Js.span_digits r in
     let '(fp, r2) :=
       match r1 with
       | String "." t => Js.span_digits t
       | _ => ([], r1)
       end in
     negb (length (ip ++ fp) =? 0) && Js.is_empty (after_exponent r2).

(** A price that is not positive or not numeric: a number that is [NaN]
    or at most 0, a string that is not a numeral or whose value is at
    most 0, or no number or string at all. *)
Definition nonPositiveOrNonNumeric (v : Js.value) : bool :=
  match v with
  | Js.Num x => Js.isNaN x || Js.leb x Js.zero
  | Js.Str s => negb (numericText s) || Js.leb (Js.parseFloat_string s) Js.zero
  | _ => true
  end.

(** A price in which [parseFloat] finds no number, or one that is at
    most 0. *)
Definition unreadableOrNonPositive (v : Js.value) : bool :=
  match v with
  | Js.Num x => Js.isNaN (Js.round x) || Js.leb (Js.round x) Js.zero
  | Js.Str s =>
      Js.isNaN (Js.parseFloat_string s) || Js.leb (Js.parseFloat_string s) Js.zero
  | _ => true
  end.

(** A quantity below 1, given as a number or as a string that starts
    with one. *)
Definition belowOne (v : Js.value) : bool :=
  match v with
  | Js.Num x => Js.ltb x Js.one
  | Js.Str s => Js.ltb (Js.parseFloat_string s) Js.one
  | _ => false
  end.

(** The spec's conditions on a line item: name non-empty, price > 0,
    quantity >= 1. *)
Definition validItem (it : Item) : Prop :=
  name it <> "" /\ Js.ltb Js.zero (price it) = true /\ Js.leb Js.one (qty it) = true.

(** A [method] field on which [toLowerCase] is not called, or is
    defined: a falsy value or a string. *)
Definition methodUsable (v : Js.value) : Prop :=
  Js.truthy v = false \/ exists s, v = Js.Str s.

Definition terminal (st : string) : Prop := st = "completed" \/ st = "canceled".

(** What an update may leave alone: every field but the status, and
    every field but the status and the payment sub-record. *)
Definition sameButStatus `{Helpers} (o o' : Order) : Prop :=
  tableId o' = tableId o /\ customerId o' = customerId o
  /\ orderNumber o' = orderNumber o /\ items o' = items o /\ totals o' = totals o
  /\ payment o' = payment o /\ meta o' = meta o /\ createdAt o' = createdAt o.

Definition sameButStatusAndPayment `{Helpers} (o o' : Order) : Prop :=
  tableId o' = tableId o /\ customerId o' = customerId o
  /\ orderNumber o' = orderNumber o /\ items o' = items o /\ totals o' = totals o
  /\ meta o' = meta o /\ createdAt o' = createdAt o.

(** The optional filters of a listing: the table, when [tableId] is
    given and not empty, and the status, when [status] is given and is
    one of the six statuses. *)
Definition passesFilters `{Helpers} (req : Request) (o : Order) : bool :=
  match query_tableId req with
  | Some t => Js.is_empty t || bool_decide (tableId o = Js.Str t)
  | None => true
  end
  && match query_status req with
     | Some st => negb (bool_decide (st ∈ orderStatuses)) || bool_decide (status o = st)
     | None => true
     end.

(** The status code, message and errors of an answer. *)
Definition answer `{Helpers} (o : Outcome) : option (nat * string * list string) :=
  match o with
  | Sent r => Some (code r, message r, errors r)
  | Thrown _ => None
  end.

Definition elevated (u : User) : Prop := role u = "staff" \/ role u = "admin".

(** The greatest integer up to which binary64 holds every integer. *)
Definition maxSafeInteger : Z := (2 ^ 53 - 1)%Z.

(** A request whose [page] and [limit] are read as integers of that
    range, the offset [(page - 1) * limit] being one too: the numbers
    the handler computes with are then these integers themselves. *)
Definition exactPage (req : Request) : Prop :=
  let page := paramNumber (query_page req) 1 in
  let limit := paramNumber (query_limit req) 20 in
  Js.finite page = true /\ Js.finite limit = true
  /\ (Z.abs (Js.to_Z page) <= maxSafeInteger)%Z
  /\ (Z.abs (Js.to_Z limit) <= maxSafeInteger)%Z
  /\ (Z.abs ((Js.to_Z page - 1) * Js.to_Z limit) <= maxSafeInteger)%Z.

(** ** Sample data *)

Definition sample_mul (x y : Js.number) : Js.number :=
  match x, y with
  | Js.Fin a m e, Js.Fin b n f => Js.Fin (xorb a b) (m * n) (e + f)
  | Js.Inf a, Js.Inf b => Js.Inf (xorb a b)
  | Js.Inf a, Js.Fin b n _ | Js.Fin b n _, Js.Inf a =>
      if (n =? 0)%N then Js.NaN else Js.Inf (xorb a b)
  | _, _ => Js.NaN
  end.

Definition sample_add (x y : Js.number) : Js.number :=
  match x, y with
  | Js.Fin a m e, Js.Fin b n f =>
      let k := Z.min e f in
      Js.Fin (Js.scaled a m e k + Js.scaled b n f k <? 0)%Z
             (Z.abs_N (Js.scaled a m e k + Js.scaled b n f k)) k
  | Js.Inf a, Js.Inf b => if Bool.eqb a b then Js.Inf a else Js.NaN
  | Js.Inf a, Js.Fin _ _ _ | Js.Fin _ _ _, Js.Inf a => Js.Inf a
  | _, _ => Js.NaN
  end.

(** A stand-in for [calculateOrderTotal]: the sum of price times quantity. *)
Definition sampleTotal (l : list Item) : Js.number :=
  foldr (fun it acc => sample_add (sample_mul (price it) (qty it)) acc) Js.zero l.

Definition is_hex (c : ascii) : bool :=
  let n := N_of_ascii c in
  ((48 <=? n) && (n <=? 57) || (65 <=? n) && (n <=? 70) || (97 <=? n) && (n <=? 102))%N.

(** A stand-in for [isMongoId]: 24 characters that make a hexadecimal
    numeral, with or without a [0x] or [0h] prefix. *)
Definition sampleIsMongoId (s : string) : bool :=
  (String.length s =? 24)
  && (all_chars is_hex s
      || match s with
         | String "0" (String c r) =>
             bool_decide (c ∈ ["x"; "X"; "h"; "H"]%char) && all_chars is_hex r
         | _ => false
         end).

(** A stand-in for the cast to an ObjectId: 24 hexadecimal digits. *)
Definition sampleCasts (s : string) : bool :=
  (String.length s =? 24) && all_chars is_hex s.

(** A stand-in for the message of a CastError. *)
Definition sampleCastMessage (s : string) : string :=
  "Cast to ObjectId failed for value " +:+ s +:+ " at path _id".

Definition pendingPayment : Payment :=
  {| pay_status := "pending"; pay_method := None; paidAt := None; refundedAt := None |}.

Definition sampleHelpers : Helpers :=
  {| Totals := Js.number;
     calculateOrderTotal := sampleTotal;
     defaultPayment := pendingPayment;
     isMongoId := sampleIsMongoId;
     castsToObjectId := sampleCasts;
     castErrorMessage := sampleCastMessage |}.

Definition teaId : string := "64b7f0c2a1d3e4f5a6b7c8d9".
Definition orderA : string := "650000000000000000000001".
Definition orderB : string := "650000000000000000000002".
Definition orderC : string := "650000000000000000000003".
Definition aliceId : string := "640000000000000000000a11".
Definition bobId : string := "640000000000000000000b0b".

Definition rawTea (p q : Js.value) : RawItem :=
  {| raw_menuItemId := Js.Str teaId; raw_name := Js.Str "Tea"; raw_price := p;
     raw_quantity := q; raw_qty := Js.Undefined; raw_note := Js.Undefined |}.

Definition sampleRequest (u : option User) (id : string) (st method : Js.value)
    (its : ItemsField) : Request :=
  {| user := u; params_id := id; body_tableId := Js.Undefined; body_items := its;
     body_meta := MetaFalsy; body_status := st; body_method := method;
     query_tableId := None; query_status := None; query_page := None;
     query_limit := None |}.

Definition sampleEnv : Env :=
  {| now := 1700000000000; fresh_id := orderC; order_number := "ORD-0042";
     save_ok := true |}.

Definition tea : Item :=
  {| menuItemId := Js.Str teaId; name := "Tea"; price := Js.Fin false 25 (-1);
     qty := Js.of_Z 2; note := Js.Str "" |}.

Definition sampleOrder (st : string) (owner : option string) : @Order sampleHelpers :=
  @Build_Order sampleHelpers Js.Null owner "ORD-0001" [tea] (Js.Fin false 50 (-1)) st
    pendingPayment [] 1690000000000.

Definition staff : User := {| user_id := aliceId; role := "staff" |}.
Definition customer : User := {| user_id := bobId; role := "customer" |}.
Definition stranger : User :=
  {| user_id := "640000000000000000000c0c"; role := "customer" |}.

(** A served order placed by the customer, and a completed one placed
    by someone else. *)
Definition sampleDb : gmap string (@Order sampleHelpers) :=
  {[ orderA := sampleOrder "served" (Some bobId);
     orderB := sampleOrder "completed" (Some aliceId) ]}.

Definition orderRequest (its : list Element) : Request :=
  sampleRequest None "" Js.Undefined Js.Undefined (ItemsArray its).

Definition idRequest (u : option User) (id : string) : Request :=
  sampleRequest u id Js.Undefined Js.Undefined ItemsAbsent.

Definition paymentRequest (id : string) (st : string) : Request :=
  sampleRequest (Some staff) id (Js.Str st) (Js.Str "Cash") ItemsAbsent.

(** ** The menu page

    [frontend/src/Router/Customer/CustomerMenu.jsx]: the filter applied
    to the loaded menu items before they are shown. *)

Module Menu.

(** [String.prototype.includes]. *)
Fixpoint includes (s sub : string) : bool :=
  String.prefix sub s
  || match s with
     | EmptyString => false
     | String _ r => includes r sub
     end.

(** A menu item as the page reads it: its name, the [id] and [_id] of
    its category when it has one, and its tags when it has any. *)
Record Category := {
  cat_id : Js.value;
  cat__id : Js.value
}.

Record MenuItem := {
  item_name : string;
  category : option Category;
  tags : option (list string)
}.

(** [item.category?.id === selectedCategory]. *)
Definition categoryIs (f : Category -> Js.value) (it : MenuItem) (selected : string) : bool :=
  match category it with
  | Some c => bool_decide (f c = Js.Str selected)
  | None => false
  end.

Definition matchesCategory (selectedCategory : string) (it : MenuItem) : bool :=
  Js.is_empty selectedCategory
  || categoryIs cat_id it selectedCategory
  || categoryIs cat__id it selectedCategory.

Definition matchesSearch (search : string) (it : MenuItem) : bool :=
  Js.is_empty search
  || includes (Js.toLowerCase (item_name it)) (Js.toLowerCase search)
  || match tags it with
     | Some ts =>
         existsb (fun tag => includes (Js.toLowerCase tag) (Js.toLowerCase search)) ts
     | None => false
     end.

Definition filteredItems (selectedCategory search : string) (menuItems : list MenuItem)
    : list MenuItem :=
  List.filter (fun it => matchesCategory selectedCategory it && matchesSearch search it)
    menuItems.

End Menu.

(** ** Further vocabulary *)

(** The statuses of an order are among the enumerations. *)
Definition statusesKnown `{Helpers} (o : Order) : Prop :=
  status o ∈ orderStatuses /\ pay_status (payment o) ∈ validPaymentStatuses.

(** An order has at least one line item, and each has a non-empty name,
    a price above 0 and a quantity of at least 1. *)
Definition itemsSound `{Helpers} (o : Order) : Prop :=
  items o <> [] /\ Forall validItem (items o).

(** The method a payment update writes: the submitted string,
    lower-cased and trimmed, unless that is empty. *)
Definition submittedMethod (v : Js.value) : option string :=
  match v with
  | Js.Str s =>
      if Js.is_empty (Js.trim (Js.toLowerCase s)) then None
      else Some (Js.trim (Js.toLowerCase s))
  | _ => None
  end.

(** The orders a listing is about: for staff and admin those that pass
    the filters, for anyone else the user's own. *)
Definition visibleTo `{Helpers} (u : User) (req : Request) (o : Order) : bool :=
  if bool_decide (role u ∈ ["staff"; "admin"]) then passesFilters req o
  else bool_decide (customerId o = Some (user_id u)).

(** Newest first. *)
Definition notOlder `{Helpers} (a b : string * Order) : Prop :=
  (createdAt b.2 <= createdAt a.2)%Z.

(** The orders of the collection that [keep] retains. *)
Definition kept `{Helpers} (keep : Order -> bool) (db : gmap string Order)
    : list (string * Order) :=
  filter (fun d => keep d.2 = true) (map_to_list db).

(** [orders] is the page [page] of size [limit] of those orders: with
    all of them put newest first (orders of the same time in any order),
    what follows the first [(page - 1) * limit], up to [|limit|] orders. *)
Definition pageOf `{Helpers} (keep : Order -> bool) (page limit : Z)
    (db : gmap string Order) (orders : list (string * Order)) : Prop :=
  exists sorted,
    sorted ≡ₚ kept keep db
    /\ StronglySorted notOlder sorted
    /\ orders = take (Z.to_nat (Z.abs limit)) (drop (Z.to_nat ((page - 1) * limit)) sorted).

Definition menuSample : list Menu.MenuItem :=
  [ {| Menu.item_name := "Masala Tea";
       Menu.category := Some {| Menu.cat_id := Js.Undefined; Menu.cat__id := Js.Str "drinks" |};
       Menu.tags := Some ["hot"; "Chai"] |};
    {| Menu.item_name := "Lemonade"; Menu.category := None; Menu.tags := None |} ].

(** * Properties *)

Example toString_samples :
  map Js.number_toString
    [Js.Fin false 499 (-2); Js.Fin true 1500 (-2); Js.Fin false 5 (-7);
     Js.Fin false 12 20; Js.Fin false 12345 18; Js.Fin false 3 0; Js.Fin false 1 21;
     Js.Fin false 1234 (-1); Js.Fin false 1 (-6); Js.Fin false 100 0]
  = ["4.99"; "-15"; "5e-7"; "1.2e+21"; "1.2345e+22"; "3"; "1e+21"; "123.4"; "0.000001"; "100"].
Proof. vm_compute. reflexivity. Qed.

Example parse_samples :
  (Js.parseFloat (Js.Str "12abc"), Js.parseFloat (Js.Str " -4.50e1x"),
   Js.parseFloat (Js.Str "."), Js.parseInt (Js.Num (Js.Fin false 5 (-7))),
   Js.parseInt (Js.Str "0"), Js.parseFloat (Js.Num (Js.Fin false 475 (-2))))
  = (Js.Fin false 12 0, Js.Fin true 45 0, Js.NaN, Js.Fin false 5 0,
     Js.Fin false 0 0, Js.Fin false 475 (-2)).
Proof. vm_compute. reflexivity. Qed.

(** What is read is the nearest double: an integer past [2^53] is
    rounded, ties to even, and a fraction is the exact value of its
    double. *)
Example nearest_samples :
  (Js.parseInt (Js.Str "9007199254740993"), Js.parseInt (Js.Str "9007199254740995"),
   Js.parseFloat (Js.Str "9007199254740993"),
   Js.parseFloat (Js.Str "0.1"),
   Js.parseFloat (Js.Str "4.99"),
   Js.parseFloat (Js.Str "0.99999999999999999999"),
   Js.parseFloat (Js.Str "1e23"))
  = (Js.of_Z 9007199254740992, Js.of_Z 9007199254740996,
     Js.of_Z 9007199254740992,
     Js.Fin false 1000000000000000055511151231257827021181583404541015625 (-55),
     Js.Fin false 49900000000000002131628207280300557613372802734375 (-49),
     Js.one,
     Js.of_Z 99999999999999991611392).
Proof. vm_compute. reflexivity. Qed.

(** The range of binary64: a numeral at or below [2^-1075] reads as 0,
    one at or above [2^1024 - 2^970] as an infinity; in between, the
    least double is [2^-1074] and the greatest [2^1024 - 2^971]. *)
Example range_samples :
  (Js.parseFloat (Js.Str "1e-400"), Js.parseFloat (Js.Str "2e-324"),
   Js.truthy_number (Js.parseFloat (Js.Str "3e-324")),
   bool_decide (Js.parseFloat (Js.Str "3e-324") = Js.parseFloat (Js.Str "5e-324")),
   Js.parseFloat (Js.Str "1.7976931348623158e308"),
   Js.parseFloat (Js.Str "1.7976931348623159e308"), Js.parseFloat (Js.Str "-1e400"),
   Js.finite (Js.parseInt (Js.Str (String "1" (Js.zeros 308)))),
   Js.parseInt (Js.Str (String "1" (Js.zeros 309))),
   Js.truthy (Js.Num (Js.Fin false 1 (-400))))
  = (Js.Fin false 0 0, Js.Fin false 0 0, true, true,
     Js.of_Z (2 ^ 1024 - 2 ^ 971), Js.Inf false, Js.Inf true,
     true, Js.Inf false, false).
Proof. vm_compute. reflexivity. Qed.

Example isInt_samples :
  map (Validator.isInt 1)
    [Js.Num (Js.of_Z 3); Js.Str "007"; Js.Num Js.zero; Js.Str "0"; Js.Num (Js.of_Z (-2));
     Js.Num (Js.Fin false 5 (-1)); Js.Str "2.0"; Js.Undefined; Js.Str " 4"; Js.Str "+4"]
  = [true; true; false; false; false; false; false; false; false; true].
Proof. vm_compute. reflexivity. Qed.

Example numericText_samples :
  map numericText ["12"; " 4.50 "; "-.5"; "1e3"; "12."; "12abc"; "abc"; ""; "1e"; "Infinity"]
  = [true; true; true; true; true; false; false; false; false; true].
Proof. vm_compute. reflexivity. Qed.

Example trim_samples :
  (Js.trim "  a b  ", Js.trim "   ", Js.toLowerCase " PAID ", Js.digits_of 0, Js.digits_of 1205)
  = ("a b", "", " paid ", "0", "1205").
Proof. vm_compute. reflexivity. Qed.

Section Properties.

Context `{Helpers}.

(** ** The collection's operations *)

Lemma applySet_setStatus st (o : Order) :
  status (applySet (setStatus st) o) = st /\ sameButStatus o (applySet (setStatus st) o).
Proof.
  unfold sameButStatus. destruct o as [? ? ? ? ? ? [] ? ?]; simpl. repeat split.
Qed.

Lemma castError_present id (db : Store) o : db !! id = Some o -> castError id db = false.
Proof.
  intros Hl. unfold castError. rewrite Hl.
  rewrite bool_decide_eq_false_2 by done. by rewrite andb_false_r.
Qed.

Lemma castError_absent id (db : Store) :
  db !! id = None -> castError id db = negb (castsToObjectId id).
Proof.
  intros Hl. unfold castError. rewrite Hl.
  rewrite bool_decide_eq_true_2 by done. by rewrite andb_true_r.
Qed.

Lemma findById_present id (db : Store) o :
  db !! id = Some o -> findById id db = Returned (Some o).
Proof. intros Hl. unfold findById. by rewrite (castError_present _ _ _ Hl), Hl. Qed.

Lemma findById_absent id (db : Store) :
  db !! id = None ->
  findById id db = if castsToObjectId id then Returned None else CastError.
Proof.
  intros Hl. unfold findById. rewrite (castError_absent _ _ Hl), Hl.
  by destruct (castsToObjectId id).
Qed.

Lemma findOneAndUpdate_hit id cond u (db : Store) o :
  db !! id = Some o -> cond o = true ->
  findOneAndUpdate id cond u db
  = (Returned (Some (applySet u o)), <[id := applySet u o]> db).
Proof.
  intros Hl Hc. unfold findOneAndUpdate.
  by rewrite (castError_present _ _ _ Hl), Hl, Hc.
Qed.

Lemma findOneAndUpdate_miss id cond u (db : Store) o :
  db !! id = Some o -> cond o = false ->
  findOneAndUpdate id cond u db = (Returned None, db).
Proof.
  intros Hl Hc. unfold findOneAndUpdate.
  by rewrite (castError_present _ _ _ Hl), Hl, Hc.
Qed.

Lemma findOneAndUpdate_absent id cond u (db : Store) :
  db !! id = None ->
  findOneAndUpdate id cond u db
  = (if castsToObjectId id then Returned None else CastError, db).
Proof.
  intros Hl. unfold findOneAndUpdate. rewrite (castError_absent _ _ Hl), Hl.
  by destruct (castsToObjectId id).
Qed.

(** After [findOneAndUpdate], a document that was in the collection is
    still there, either untouched or with the [$set] applied. *)
Lemma findOneAndUpdate_lookup id cond u (db : Store) id' o :
  db !! id' = Some o ->
  (findOneAndUpdate id cond u db).2 !! id' = Some o
  \/ (id' = id /\ (findOneAndUpdate id cond u db).2 !! id' = Some (applySet u o)).
Proof.
  intros Hl. unfold findOneAndUpdate.
  destruct (castError id db); [by left|].
  destruct (db !! id) as [o0|] eqn:E; [|by left].
  destruct (cond o0); [|by left]. simpl.
  destruct (decide (id = id')) as [->|Hne].
  - right. rewrite lookup_insert_eq. split; [done|]. congruence.
  - left. by rewrite lookup_insert_ne.
Qed.

Lemma cancelable_terminal (o : Order) : cancelable o = false <-> terminal (status o).
Proof.
  unfold cancelable, terminal. rewrite negb_false_iff, bool_decide_eq_true.
  rewrite !elem_of_cons, elem_of_nil. tauto.
Qed.

(** ** [createOrder] without items *)

(** C8: when the [items] field is missing, not an array or an empty
    array, [createOrder] answers 400 "Order must contain at least one
    item", with no line-item error, and leaves the collection as it was. *)
Theorem createOrder_without_items req env (db : Store) :
  body_items req = ItemsAbsent \/ body_items req = ItemsNotArray
  \/ body_items req = ItemsArray [] ->
  createOrder req env db
  = (Sent (failure 400 "Order must contain at least one item" []), db).
Proof.
  intros [E|[E|E]]; unfold createOrder; rewrite E; reflexivity.
Qed.

(** ** [cancelOrder] *)

Lemma cancelOrder_closed req (db : Store) o :
  db !! params_id req = Some o ->
  terminal (status o) ->
  cancelOrder req db
  = (Sent (failure 404 "Order not found or cannot be canceled" []), db).
Proof.
  intros Hl Ht. unfold cancelOrder. apply cancelable_terminal in Ht.
  by rewrite (findOneAndUpdate_miss _ _ _ _ _ Hl Ht).
Qed.

Lemma cancelOrder_open req (db : Store) o :
  db !! params_id req = Some o ->
  ~ terminal (status o) ->
  cancelOrder req db
  = (Sent (ok 200 "Order canceled" (IdOf (params_id req))),
     <[params_id req := applySet (setStatus "canceled") o]> db).
Proof.
  intros Hl Ht. unfold cancelOrder.
  assert (cancelable o = true) as Hc.
  { destruct (cancelable o) eqn:E; [done|]. by apply cancelable_terminal in E. }
  by rewrite (findOneAndUpdate_hit _ _ _ _ _ Hl Hc).
Qed.

(** C4: on an order that is completed or canceled [cancelOrder] answers
    404 and changes nothing; on any other existing order it answers 200
    and the one conditional update sets the status to canceled. *)
Theorem cancelOrder_guarded req (db : Store) o :
  db !! params_id req = Some o ->
  (terminal (status o) ->
   cancelOrder req db
   = (Sent (failure 404 "Order not found or cannot be canceled" []), db))
  /\ (~ terminal (status o) ->
      cancelOrder req db
      = (Sent (ok 200 "Order canceled" (IdOf (params_id req))),
         <[params_id req := applySet (setStatus "canceled") o]> db)
      /\ status (applySet (setStatus "canceled") o) = "canceled"
      /\ sameButStatus o (applySet (setStatus "canceled") o)).
Proof.
  intros Hl. split; intros Ht.
  - by apply cancelOrder_closed with o.
  - split; [by apply cancelOrder_open|]. apply applySet_setStatus.
Qed.

Lemma cancelOrder_unknown req (db : Store) :
  db !! params_id req = None ->
  cancelOrder req db
  = (if castsToObjectId (params_id req)
     then Sent (failure 404 "Order not found or cannot be canceled" [])
     else Thrown "CastError", db).
Proof.
  intros Hl. unfold cancelOrder. rewrite findOneAndUpdate_absent by done.
  by destruct (castsToObjectId _).
Qed.

(** C9: the cancel route checks that the request is authenticated and
    that the id has the format of an id, nothing else: whoever the user
    is and whoever placed the order, an order that is not completed or
    canceled is canceled: the answer is 200, and the order is stored
    with the status canceled and every other field as it was. *)
Theorem postCancel_any_user req (db : Store) u o :
  user req = Some u ->
  isMongoId (params_id req) = true ->
  db !! params_id req = Some o ->
  ~ terminal (status o) ->
  exists o',
    postCancel req db
    = (Sent (ok 200 "Order canceled" (IdOf (params_id req))), <[params_id req := o']> db)
    /\ status o' = "canceled"
    /\ sameButStatus o o'.
Proof.
  intros Hu Hid Hl Ht. exists (applySet (setStatus "canceled") o). split.
  - unfold postCancel, before, authenticate, validateIdParam.
    rewrite Hu, Hid. simpl. by apply cancelOrder_open.
  - apply applySet_setStatus.
Qed.

(** ** [updateOrderStatus] *)

Lemma isValidOrderStatus_member st :
  st ∈ orderStatuses -> isValidOrderStatus (Js.Str st) = true.
Proof. intros Hin. unfold isValidOrderStatus. by apply bool_decide_eq_true. Qed.

Lemma isIn_member l st : st ∈ l -> Validator.isIn l (Js.Str st) = true.
Proof. intros Hin. unfold Validator.isIn. by apply bool_decide_eq_true. Qed.

(** C10: for an existing order and any of the six statuses,
    [updateOrderStatus] stores the requested status whatever the current
    one is (so also from completed or canceled), and for staff and admin
    users the route reaches the handler with every such status. *)
Theorem updateOrderStatus_unconditional req (db : Store) o st :
  db !! params_id req = Some o ->
  st ∈ orderStatuses ->
  body_status req = Js.Str st ->
  updateOrderStatus req db
  = (Sent (ok 200 "Order status updated" (StatusOf (params_id req) st)),
     <[params_id req := applySet (setStatus st) o]> db)
  /\ status (applySet (setStatus st) o) = st
  /\ (forall u, user req = Some u -> role u ∈ ["staff"; "admin"] ->
      patchStatus req db = updateOrderStatus req db).
Proof.
  intros Hl Hin Hb. split; [|split].
  - unfold updateOrderStatus, findByIdAndUpdate.
    rewrite Hb, (isValidOrderStatus_member _ Hin). simpl.
    rewrite (findOneAndUpdate_hit _ _ _ _ o Hl eq_refl).
    by destruct (applySet_setStatus st o) as [-> _].
  - apply applySet_setStatus.
  - intros u Hu Hr. unfold patchStatus, before, authenticate, requireStaff.
    rewrite Hu, (bool_decide_eq_true_2 _ Hr).
    unfold validateOrderStatus. rewrite Hb, (isIn_member _ _ Hin). reflexivity.
Qed.

(** ** [updateOrderPayment] *)

Lemma applySet_updateData pst m env (o : Order) :
  let o' := applySet (updateData pst m (status o) env) o in
  sameButStatusAndPayment o o'
  /\ pay_status (payment o') = pst
  /\ status o'
     = (if bool_decide (pst = "paid") && bool_decide (status o = "served")
        then "completed" else status o).
Proof.
  unfold sameButStatusAndPayment. destruct o; simpl. repeat split.
  by destruct (bool_decide (pst = "paid") && bool_decide (_ = "served")).
Qed.

(** What [updateOrderPayment] does once the status has been read, the
    method is usable and the order exists. *)
Lemma updateOrderPayment_found req env (db : Store) o pst :
  db !! params_id req = Some o ->
  lowerTrim (body_status req) = Some pst ->
  pst ∈ validPaymentStatuses ->
  methodUsable (body_method req) ->
  exists m,
    let o' := applySet (updateData pst m (status o) env) o in
    updateOrderPayment req env db
    = (Sent (ok 200 "Order payment updated successfully"
               (PaymentOf (params_id req) (payment o') (status o'))),
       <[params_id req := o']> db).
Proof.
  intros Hl Hs Hin Hm. unfold updateOrderPayment. rewrite Hs.
  assert (exists m0,
    (if Js.truthy (body_method req)
     then match lowerTrim (body_method req) with
          | Some m => Some (Some m) | None => None end
     else Some None) = Some m0) as [m0 ->].
  { destruct Hm as [-> | [s ->]]; [by eexists|].
    simpl. destruct (negb (Js.is_empty s)); by eexists. }
  rewrite (bool_decide_eq_true_2 _ Hin). simpl.
  rewrite (findById_present _ _ _ Hl).
  eexists. rewrite (findOneAndUpdate_hit _ _ _ _ o Hl eq_refl). reflexivity.
Qed.

(** C3: when the update sets the payment status to paid and the order
    is served, the order becomes completed; when the status set is not
    paid, or the order is not served, the order's status stays as it was. *)
Theorem updateOrderPayment_promotes req env (db : Store) o pst :
  db !! params_id req = Some o ->
  lowerTrim (body_status req) = Some pst ->
  pst ∈ validPaymentStatuses ->
  methodUsable (body_method req) ->
  exists resp o',
    updateOrderPayment req env db = (Sent resp, <[params_id req := o']> db)
    /\ code resp = 200
    /\ pay_status (payment o') = pst
    /\ (pst = "paid" /\ status o = "served" -> status o' = "completed")
    /\ (pst <> "paid" \/ status o <> "served" -> status o' = status o).
Proof.
  intros Hl Hs Hin Hm.
  destruct (updateOrderPayment_found req env db o pst Hl Hs Hin Hm) as [m Hrun].
  destruct (applySet_updateData pst m env o) as (_ & Hp & Hst).
  eexists _, _. split; [exact Hrun|]. split; [done|]. split; [exact Hp|].
  rewrite Hst. split.
  - intros [-> ->]. reflexivity.
  - intros [Hne|Hne].
    + by rewrite (bool_decide_eq_false_2 _ Hne).
    + rewrite (bool_decide_eq_false_2 _ Hne). by rewrite andb_false_r.
Qed.

(** The collection after [updateOrderPayment]: as before, or with one
    [$set] of payment fields applied to the order addressed. *)
Lemma updateOrderPayment_store req env (db : Store) :
  (updateOrderPayment req env db).2 = db
  \/ exists pst m o,
       db !! params_id req = Some o
       /\ (updateOrderPayment req env db).2
          = <[params_id req := applySet (updateData pst m (status o) env) o]> db.
Proof.
  unfold updateOrderPayment.
  destruct (lowerTrim (body_status req)) as [pst|]; [|by left].
  destruct (if Js.truthy (body_method req) then _ else _) as [m|]; [|by left].
  destruct (negb (bool_decide (pst ∈ validPaymentStatuses))); [by left|].
  destruct (db !! params_id req) as [o|] eqn:Hl.
  - rewrite (findById_present _ _ _ Hl), (findOneAndUpdate_hit _ _ _ _ o Hl eq_refl).
    right. by eexists _, _, _.
  - rewrite (findById_absent _ _ Hl). left. by destruct (castsToObjectId _).
Qed.

(** ** Updates leave the line items and the totals alone *)

(** C7: neither [updateOrderStatus] nor [updateOrderPayment] touches the
    items or the totals of any order: the first writes the status only,
    the second payment fields and, when the payment becomes paid on a
    served order, the status. *)
Theorem updates_keep_items_and_totals req env (db : Store) id o :
  db !! id = Some o ->
  (exists o', (updateOrderStatus req db).2 !! id = Some o' /\ sameButStatus o o')
  /\ (exists o', (updateOrderPayment req env db).2 !! id = Some o'
        /\ sameButStatusAndPayment o o'
        /\ (status o' = status o
            \/ (status o = "served" /\ pay_status (payment o') = "paid"
                /\ status o' = "completed"))).
Proof.
  intros Hl. split.
  - assert ((updateOrderStatus req db).2 = db
            \/ (updateOrderStatus req db).2
               = (findOneAndUpdate (params_id req) (fun _ => true)
                    (setStatus (Js.toString (body_status req))) db).2) as [->| ->].
    { unfold updateOrderStatus, findByIdAndUpdate.
      destruct (negb _); [by left|]. right.
      by destruct (findOneAndUpdate _ _ _ _) as [[|[?|]] ?]. }
    + exists o. split; [done|]. by unfold sameButStatus.
    + destruct (findOneAndUpdate_lookup (params_id req) (fun _ => true)
                  (setStatus (Js.toString (body_status req))) db id o Hl) as [E|[_ E]].
      * exists o. split; [done|]. by unfold sameButStatus.
      * eexists. split; [exact E|]. apply applySet_setStatus.
  - destruct (updateOrderPayment_store req env db) as [->|(pst & m & o0 & Hl0 & ->)].
    + exists o. split; [done|]. split; [by unfold sameButStatusAndPayment|by left].
    + destruct (decide (params_id req = id)) as [<-|Hne].
      * rewrite lookup_insert_eq. assert (o0 = o) as -> by congruence.
        destruct (applySet_updateData pst m env o) as (Hsame & Hp & Hst).
        eexists. split; [done|]. split; [exact Hsame|].
        rewrite Hst. destruct (bool_decide (pst = "paid")) eqn:E1;
          destruct (bool_decide (status o = "served")) eqn:E2; simpl; auto.
        right. apply bool_decide_eq_true in E1, E2. subst pst. auto.
      * rewrite lookup_insert_ne by done.
        exists o. split; [done|]. split; [by unfold sameButStatusAndPayment|by left].
Qed.

(** ** [listOrders] *)

Lemma elevated_role u : role u ∈ ["staff"; "admin"] <-> elevated u.
Proof. unfold elevated. rewrite !elem_of_cons, elem_of_nil. tauto. Qed.

Lemma elem_of_insertNewest (d x : string * Order) l :
  x ∈ insertNewest d l <-> x = d \/ x ∈ l.
Proof.
  induction l as [|d' l IH]; simpl.
  - rewrite list_elem_of_singleton, elem_of_nil. tauto.
  - destruct (_ <=? _)%Z.
    + by rewrite elem_of_cons.
    + rewrite !elem_of_cons, IH. tauto.
Qed.

Lemma elem_of_sortNewestFirst (x : string * Order) l :
  x ∈ sortNewestFirst l <-> x ∈ l.
Proof.
  unfold sortNewestFirst. induction l as [|d l IH]; simpl; [done|].
  by rewrite elem_of_insertNewest, IH, elem_of_cons.
Qed.

Lemma elem_of_window {A} (x : A) n k (l : list A) : x ∈ take n (drop k l) -> x ∈ l.
Proof.
  intros Hin. apply list_elem_of_lookup in Hin as [i Hi].
  apply lookup_take_Some in Hi as [Hi _]. rewrite lookup_drop in Hi.
  apply list_elem_of_lookup. eauto.
Qed.

Lemma elem_of_find q (db : Store) id o :
  (id, o) ∈ find q db <-> db !! id = Some o /\ matches q o = true.
Proof.
  unfold find. rewrite list_elem_of_filter, elem_of_map_to_list. simpl. tauto.
Qed.

Lemma matches_listQuery u req (o : Order) :
  matches (listQuery u req) o
  = if bool_decide (role u ∈ ["staff"; "admin"]) then passesFilters req o
    else bool_decide (customerId o = Some (user_id u)).
Proof.
  unfold listQuery, passesFilters. destruct (bool_decide (role u ∈ _)); [|done].
  unfold matches; simpl. rewrite andb_true_r. f_equal.
  - destruct (query_tableId req) as [t|]; simpl; [|done]. by destruct t.
  - destruct (query_status req) as [st|]; simpl; [|done].
    destruct st as [|c st]; [done|]. simpl.
    by destruct (bool_decide (String c st ∈ orderStatuses)).
Qed.

Lemma insertNewest_sorted (d : string * Order) l :
  StronglySorted notOlder l -> StronglySorted notOlder (insertNewest d l).
Proof.
  induction l as [|d' l IH]; intros Hs; simpl.
  - by repeat constructor.
  - apply StronglySorted_cons in Hs as [Hall Hs].
    destruct (createdAt d'.2 <=? createdAt d.2)%Z eqn:E.
    + apply Z.leb_le in E. apply StronglySorted_cons. split.
      * constructor; [done|]. eapply Forall_impl; [exact Hall|].
        unfold notOlder. intros x Hx. lia.
      * by apply StronglySorted_cons.
    + apply Z.leb_gt in E. apply StronglySorted_cons. split; [|by apply IH].
      apply Forall_forall. intros x Hx. apply elem_of_insertNewest in Hx as [->|Hx].
      * unfold notOlder. lia.
      * rewrite Forall_forall in Hall. by apply Hall.
Qed.

Lemma sortNewestFirst_sorted (l : list (string * Order)) :
  StronglySorted notOlder (sortNewestFirst l).
Proof.
  unfold sortNewestFirst. induction l as [|d l IH]; simpl; [constructor|].
  by apply insertNewest_sorted.
Qed.

Lemma insertNewest_perm (d : string * Order) l : insertNewest d l ≡ₚ d :: l.
Proof.
  induction l as [|d' l IH]; simpl; [done|].
  destruct (_ <=? _)%Z; [done|]. rewrite IH. apply Permutation_swap.
Qed.

Lemma sortNewestFirst_perm (l : list (string * Order)) : sortNewestFirst l ≡ₚ l.
Proof.
  unfold sortNewestFirst. induction l as [|d l IH]; simpl; [done|].
  by rewrite insertNewest_perm, IH.
Qed.

(** [listOrders] for an authenticated user, with the page spelled out. *)
Lemma listOrders_page_exact req (db : Store) u :
  user req = Some u ->
  let page := intParam (query_page req) 1 in
  let limit := intParam (query_limit req) 20 in
  let matching := find (listQuery u req) db in
  (refusedPage req = true
   /\ listOrders req db = (Sent (failure 500 "Failed to retrieve orders" []), db))
  \/ (refusedPage req = false
      /\ listOrders req db
         = (Sent (ok 200 "Orders retrieved"
                    (Page (take (Z.to_nat (Z.abs limit))
                             (drop (Z.to_nat ((page - 1) * limit))
                                (sortNewestFirst matching)))
                          page limit (Z.of_nat (length matching))
                          (ceilDiv (Z.of_nat (length matching)) limit))), db)).
Proof.
  intros Hu page limit matching. unfold listOrders. rewrite Hu.
  destruct (refusedPage req); [by left|by right].
Qed.

Lemma refusedPage_exact req :
  exactPage req ->
  refusedPage req
  = ((intParam (query_page req) 1 - 1) * intParam (query_limit req) 20 <? 0)%Z.
Proof. intros (Hp & Hl & _). unfold refusedPage. by rewrite Hp, Hl. Qed.

Lemma find_listQuery u req (db : Store) :
  find (listQuery u req) db
  = filter (fun d => (if bool_decide (role u ∈ ["staff"; "admin"]) then passesFilters req d.2
                      else bool_decide (customerId d.2 = Some (user_id u))) = true)
      (map_to_list db).
Proof.
  unfold find. apply list_filter_iff. intros [id o]. simpl.
  by rewrite matches_listQuery.
Qed.

(** [listOrders] on a request with an exact page. *)
Lemma listOrders_exactPage req (db : Store) u :
  user req = Some u ->
  exactPage req ->
  let page := intParam (query_page req) 1 in
  let limit := intParam (query_limit req) 20 in
  let keep o := if bool_decide (role u ∈ ["staff"; "admin"]) then passesFilters req o
                else bool_decide (customerId o = Some (user_id u)) in
  let total := Z.of_nat (length (kept keep db)) in
  ((0 <= (page - 1) * limit)%Z ->
   exists orders,
     listOrders req db
     = (Sent (ok 200 "Orders retrieved"
                (Page orders page limit total (ceilDiv total limit))), db)
     /\ pageOf keep page limit db orders)
  /\ (((page - 1) * limit < 0)%Z ->
      listOrders req db = (Sent (failure 500 "Failed to retrieve orders" []), db)).
Proof.
  intros Hu He page limit keep total. pose proof (refusedPage_exact req He) as Hr.
  fold page limit in Hr.
  destruct (listOrders_page_exact req db u Hu) as [[Hy E]|[Hn E]]; rewrite E, Hr in *.
  - apply Z.ltb_lt in Hy. split; [lia|done].
  - apply Z.ltb_ge in Hn. split; [|lia]. intros _.
    rewrite find_listQuery. fold (kept keep db). eexists. split; [reflexivity|].
    exists (sortNewestFirst (kept keep db)).
    split; [apply sortNewestFirst_perm|]. split; [apply sortNewestFirst_sorted|done].
Qed.

(** C5: [listOrders] is scoped by role.  For staff and admin the listing
    ranges over every order of the collection that passes the optional
    table and status filters (every order, when none is given): the
    total counts them and the page is a page of them, newest first; for
    any other authenticated user it ranges over that user's own orders,
    and every order returned is one of them; without a user the answer is
    401 and carries no order.  The page is answered (200) when the offset
    [(page - 1) * limit] is not negative and 500 when it is, for a page
    and a limit within the range in which numbers are exact; whatever
    they are, the only other answer is that 500. *)
Theorem listOrders_role_scoped req (db : Store) :
  let page := intParam (query_page req) 1 in
  let limit := intParam (query_limit req) 20 in
  let refused : Outcome * Store :=
    (Sent (failure 500 "Failed to retrieve orders" []), db) in
  let listed (keep : Order -> bool) :=
    let total := Z.of_nat (length (kept keep db)) in
    exists orders,
      listOrders req db
      = (Sent (ok 200 "Orders retrieved"
                 (Page orders page limit total (ceilDiv total limit))), db)
      /\ pageOf keep page limit db orders in
  (forall u, user req = Some u -> elevated u ->
     (query_tableId req = None -> query_status req = None ->
      forall o, passesFilters req o = true)
     /\ (exactPage req -> (0 <= (page - 1) * limit)%Z -> listed (passesFilters req))
     /\ (exactPage req -> ((page - 1) * limit < 0)%Z -> listOrders req db = refused)
     /\ (listOrders req db = refused
         \/ exists orders page limit pages,
              listOrders req db
              = (Sent (ok 200 "Orders retrieved"
                         (Page orders page limit
                            (Z.of_nat (length (kept (passesFilters req) db))) pages)), db)
              /\ forall id o, (id, o) ∈ orders ->
                   db !! id = Some o /\ passesFilters req o = true))
  /\ (forall u, user req = Some u -> ~ elevated u ->
        let own (o : Order) := bool_decide (customerId o = Some (user_id u)) in
        (exactPage req -> (0 <= (page - 1) * limit)%Z -> listed own)
        /\ (exactPage req -> ((page - 1) * limit < 0)%Z -> listOrders req db = refused)
        /\ (listOrders req db = refused
            \/ exists orders page limit total pages,
                 listOrders req db
                 = (Sent (ok 200 "Orders retrieved" (Page orders page limit total pages)), db)
                 /\ forall id o, (id, o) ∈ orders ->
                      db !! id = Some o /\ customerId o = Some (user_id u)))
  /\ (user req = None ->
      listOrders req db
      = (Sent (failure 401 "Authentication required to list orders" []), db)).
Proof.
  intros page limit refused listed. split; [|split].
  - intros u Hu He. apply elevated_role in He. split; [|split; [|split]].
    + intros Ht Hs o. unfold passesFilters. by rewrite Ht, Hs.
    + intros Hx Hpos. destruct (listOrders_exactPage req db u Hu Hx) as [E _].
      rewrite (bool_decide_eq_true_2 _ He) in E. by apply E.
    + intros Hx Hneg. destruct (listOrders_exactPage req db u Hu Hx) as [_ E]. by apply E.
    + destruct (listOrders_page_exact req db u Hu) as [[_ E]|[_ E]]; [by left|].
      right. eexists _, _, _, _. split.
      * rewrite E, find_listQuery. by rewrite (bool_decide_eq_true_2 _ He).
      * intros id o Hin.
        apply elem_of_window, elem_of_sortNewestFirst, list_elem_of_filter in Hin.
        destruct Hin as [Hp Hl]. by apply elem_of_map_to_list in Hl.
  - intros u Hu He own. rewrite <- elevated_role in He. split; [|split].
    + intros Hx Hpos. destruct (listOrders_exactPage req db u Hu Hx) as [E _].
      rewrite (bool_decide_eq_false_2 _ He) in E. by apply E.
    + intros Hx Hneg. destruct (listOrders_exactPage req db u Hu Hx) as [_ E]. by apply E.
    + destruct (listOrders_page_exact req db u Hu) as [[_ E]|[_ E]]; [by left|].
      right. eexists _, _, _, _, _. split; [exact E|].
      intros id o Hin.
      apply elem_of_window, elem_of_sortNewestFirst, elem_of_find in Hin.
      rewrite matches_listQuery, (bool_decide_eq_false_2 _ He) in Hin.
      destruct Hin as [Hl Hc]. by apply bool_decide_eq_true in Hc.
  - intros Hu. unfold listOrders. by rewrite Hu.
Qed.

(** ** The string form of a number *)

Lemma all_chars_app p a b :
  all_chars p (a +:+ b) = all_chars p a && all_chars p b.
Proof.
  induction a as [|c a IH]; [done|].
  change (String c a +:+ b) with (String c (a +:+ b)). simpl.
  by rewrite IH, andb_assoc.
Qed.

Lemma all_chars_substring p n m s :
  all_chars p s = true -> all_chars p (substring n m s) = true.
Proof.
  revert n m. induction s as [|c s IH]; intros n m Hs.
  - by destruct n, m.
  - simpl in Hs. apply andb_true_iff in Hs as [Hc Hs].
    destruct n as [|n]; simpl.
    + destruct m as [|m]; [done|]. simpl. by rewrite Hc, IH.
    + by apply IH.
Qed.

Lemma all_chars_drop_end p q s :
  all_chars p s = true -> all_chars p (Js.drop_end q s) = true.
Proof.
  induction s as [|c s IH]; [done|]. simpl. intros Hs.
  apply andb_true_iff in Hs as [Hc Hs].
  destruct (q c && Js.is_empty _); [done|]. simpl. by rewrite Hc, IH.
Qed.

Lemma all_chars_zeros n : all_chars number_char (Js.zeros n) = true.
Proof. induction n; [done|]. simpl. by rewrite IHn. Qed.

Lemma number_char_digit d : (d < 10)%N -> number_char (Js.digit_char d) = true.
Proof.
  intros Hd.
  assert (d ∈ [0; 1; 2; 3; 4; 5; 6; 7; 8; 9]%N) as Hin.
  { rewrite !elem_of_cons. lia. }
  rewrite !elem_of_cons, elem_of_nil in Hin.
  by repeat (destruct Hin as [-> | Hin]; [reflexivity|]).
Qed.

Lemma all_chars_digits_aux fuel m acc :
  all_chars number_char acc = true ->
  all_chars number_char (Js.digits_aux fuel m acc) = true.
Proof.
  revert m acc. induction fuel as [|fuel IH]; intros m acc Hacc; [done|].
  simpl. destruct (m =? 0)%N; [done|]. apply IH. simpl.
  rewrite Hacc, number_char_digit; [done|]. apply N.mod_upper_bound. lia.
Qed.

Lemma all_chars_digits_of m : all_chars number_char (Js.digits_of m) = true.
Proof.
  unfold Js.digits_of. destruct (m =? 0)%N; [done|]. by apply all_chars_digits_aux.
Qed.

(** The string form of a number has no character outside the number
    alphabet, so it is never the name of a status. *)
Lemma number_toString_chars x : all_chars number_char (Js.number_toString x) = true.
Proof.
  destruct x as [|neg|neg m e]; [done|by destruct neg|].
  unfold Js.number_toString. destruct (m =? 0)%N; [done|].
  set (ds := Js.drop_end _ _).
  assert (all_chars number_char ds = true) as Hds
    by apply all_chars_drop_end, all_chars_digits_of.
  rewrite all_chars_app. apply andb_true_iff. split; [by destruct neg|].
  repeat match goal with |- context [if ?b then _ else _] => destruct b end.
  - by rewrite all_chars_app, Hds, all_chars_zeros.
  - by rewrite !all_chars_app, !all_chars_substring.
  - by rewrite !all_chars_app, Hds, all_chars_zeros.
  - destruct ds as [|d [|d' rest]]; [done| |]; simpl in Hds |- *;
      apply andb_true_iff in Hds as [Hd Hds]; rewrite Hd; simpl;
      rewrite ?all_chars_app, ?all_chars_digits_of; simpl; [done|].
    apply andb_true_iff in Hds as [-> ->]. done.
  - destruct ds as [|d [|d' rest]]; [done| |]; simpl in Hds |- *;
      apply andb_true_iff in Hds as [Hd Hds]; rewrite Hd; simpl;
      rewrite ?all_chars_app, ?all_chars_digits_of; simpl; [done|].
    apply andb_true_iff in Hds as [-> ->]. done.
Qed.

Lemma isIn_scalar allowed v :
  Forall (fun s => all_chars number_char s = false) allowed ->
  "true" ∉ allowed -> "false" ∉ allowed ->
  Validator.isIn allowed v = true ->
  exists s, v = Js.Str s /\ s ∈ allowed.
Proof.
  intros Hall Ht Hf Hin. unfold Validator.isIn in Hin. apply bool_decide_eq_true in Hin.
  rewrite Forall_forall in Hall. specialize (Hall _ Hin).
  destruct v as [| |b|x|s].
  - by exfalso; revert Hall; vm_compute.
  - by exfalso; revert Hall; vm_compute.
  - by destruct b.
  - destruct x as [|neg|neg m e];
      [by exfalso; revert Hall; vm_compute|by exfalso; destruct neg; revert Hall; vm_compute|].
    change (Validator.stringify (Js.Num (Js.Fin neg m e)))
      with (Js.number_toString (Js.round (Js.Fin neg m e))) in Hall.
    by rewrite number_toString_chars in Hall.
  - by exists s.
Qed.

(** ** The payment status that reaches the order *)

Lemma lowerTrim_valid s :
  s ∈ validPaymentStatuses -> lowerTrim (Js.Str s) = Some s.
Proof.
  unfold validPaymentStatuses. rewrite !elem_of_cons, elem_of_nil.
  intros [->|[->|[->|[->|[]]]]]; reflexivity.
Qed.

(** The handler's own check, on the lower-cased and trimmed status. *)
Lemma updateOrderPayment_invalid req env (db : Store) pst :
  lowerTrim (body_status req) = Some pst ->
  pst ∉ validPaymentStatuses ->
  methodUsable (body_method req) ->
  updateOrderPayment req env db
  = (Sent (failure 400 "Invalid payment status"
             ["Payment status must be one of: pending, paid, failed, refunded"]), db).
Proof.
  intros Hs Hout Hm. unfold updateOrderPayment. rewrite Hs.
  rewrite (bool_decide_eq_false_2 _ Hout).
  destruct Hm as [-> | [s ->]]; [done|].
  simpl. by destruct (negb (Js.is_empty s)).
Qed.


(** ** Comparisons of numbers *)

Lemma leb_ltb x y :
  Js.isNaN x = false -> Js.isNaN y = false -> Js.leb x y = negb (Js.ltb y x).
Proof.
  destruct x as [|a|a m e], y as [|b|b n f]; try done; intros _ _; simpl.
  - by destruct a, b.
  - by destruct a.
  - by rewrite (Z.min_comm f e), Z.leb_antisym.
Qed.

Lemma ltb_not_NaN x y : Js.ltb x y = true -> Js.isNaN x = false /\ Js.isNaN y = false.
Proof. by destruct x, y. Qed.

Lemma leb_not_NaN x y : Js.leb x y = true -> Js.isNaN x = false /\ Js.isNaN y = false.
Proof. by destruct x, y. Qed.

(** A positive integer does not round to 0. *)
Lemma nearest_integer_positive m : m <> 0%N -> Js.nearest_integer m <> 0%N.
Proof.
  intros Hm. unfold Js.nearest_integer.
  destruct (N.size m <=? 53)%N eqn:E; [done|]. apply N.leb_gt in E.
  rewrite N.size_log2 in * by done.
  set (d := (2 ^ (N.succ (N.log2 m) - 53))%N).
  assert (d <> 0%N) as Hd by (apply N.pow_nonzero; lia).
  assert (d <= m)%N as Hdm.
  { etrans; [|apply N.log2_spec; lia]. apply N.pow_le_mono_r; lia. }
  assert (1 <= m / d)%N as Hq by (apply N.div_le_lower_bound; lia).
  unfold Js.half_even. destruct (_ || _); nia.
Qed.

(** A numeral that is an integer reads as the double nearest to it. *)
Lemma nearest_of_integer neg m :
  Js.nearest neg m 0
  = if (m =? 0)%N then Js.Fin neg 0 0
    else if Js.overflows m 0 then Js.Inf neg
    else Js.Fin neg (Js.nearest_integer m) 0.
Proof.
  unfold Js.nearest, Js.underflows. change (0 <=? 0)%Z with true. cbv iota.
  change (10 ^ Z.to_N 0)%N with 1%N. by rewrite N.mul_1_r.
Qed.

(** What is read has the sign of the numeral. *)
Lemma nearest_sign neg m e :
  match Js.nearest neg m e with
  | Js.NaN => False
  | Js.Inf b | Js.Fin b _ _ => b = neg
  end.
Proof.
  unfold Js.nearest. destruct (Js.underflows m e); [done|].
  destruct (Js.overflows m e); [done|]. destruct (0 <=? e)%Z; [done|].
  destruct (Js.nearest_fraction _ _) as [q s]. unfold Js.of_binary.
  destruct (s <=? 0)%Z; [done|]. by destruct (Js.strip_zeros _ _ _).
Qed.

Lemma ltb_integer_one neg m :
  m <> 0%N -> Js.ltb (Js.Fin neg m 0) Js.one = neg.
Proof.
  intros Hm. unfold Js.ltb, Js.one, Js.scaled, Js.signed. simpl Z.min.
  rewrite !Z.sub_diag, !Z.mul_1_r.
  destruct neg; [apply Z.ltb_lt|apply Z.ltb_ge]; lia.
Qed.

(** The handler's price and quantity tests are the negations of
    "price > 0" and "quantity >= 1". *)
Lemma price_test x :
  Js.isNaN x || Js.leb x Js.zero = negb (Js.ltb Js.zero x).
Proof.
  destruct (Js.isNaN x) eqn:E; [by destruct x|].
  rewrite orb_false_l. by rewrite leb_ltb.
Qed.

Lemma quantity_test x :
  Js.isNaN x || Js.ltb x Js.one = negb (Js.leb Js.one x).
Proof.
  destruct (Js.isNaN x) eqn:E; [by destruct x|].
  rewrite orb_false_l, (leb_ltb Js.one x); [|done..]. by rewrite negb_involutive.
Qed.

(** ** [createOrder] on valid items *)

Lemma is_empty_spec s : Js.is_empty s = true <-> s = "".
Proof. by destruct s. Qed.

Lemma itemErrors_valid i it : itemErrors i it = [] <-> validItem it.
Proof.
  unfold itemErrors, validItem. rewrite price_test, quantity_test.
  destruct (Js.is_empty (name it)) eqn:En.
  - apply is_empty_spec in En. split; [done|]. by intros [? _].
  - assert (name it <> "") by (intros E; apply is_empty_spec in E; congruence).
    destruct (Js.ltb Js.zero (price it)), (Js.leb Js.one (qty it)); simpl;
      (split; [intros; by repeat split | by intros (_ & ? & ?)]).
Qed.

Lemma validateItems_valid i l : validateItems i l = [] <-> Forall validItem l.
Proof.
  revert i. induction l as [|it l IH]; intros i; simpl.
  - split; [constructor|done].
  - rewrite Forall_cons, <- (IH (S i)), <- (itemErrors_valid i it).
    split; [by apply app_eq_nil|]. by intros [-> ->].
Qed.

(** C2: when every posted item, once normalized, has a non-empty name,
    a price above 0 and a quantity of at least 1 (and [save] succeeds),
    [createOrder] stores an order holding the normalized items, the
    totals [calculateOrderTotal] gives for them, the number
    [generateOrderNumber] returned and the status placed, and answers 201
    with the id, order number, status, totals and creation time. *)
Theorem createOrder_places_order req env (db : Store) l normalized :
  body_items req = ItemsArray l ->
  l <> [] ->
  normalizeItems l = Some normalized ->
  Forall validItem normalized ->
  save_ok env = true ->
  db !! fresh_id env = None ->
  let order := newOrder req env normalized in
  createOrder req env db
  = (Sent (ok 201 "Order placed successfully"
             (Created (fresh_id env) (generateOrderNumber env) "placed"
                      (calculateOrderTotal normalized) (now env))),
     <[fresh_id env := order]> db)
  /\ items order = normalized
  /\ totals order = calculateOrderTotal normalized
  /\ orderNumber order = generateOrderNumber env
  /\ status order = "placed".
Proof.
  intros Hb Hne Hn Hv Hs Hf order. split; [|done].
  unfold createOrder. rewrite Hb. destruct l as [|e l]; [done|].
  rewrite Hn. apply (validateItems_valid 0) in Hv. rewrite Hv. simpl.
  unfold save. by rewrite Hs, (bool_decide_eq_true_2 _ Hf).
Qed.

(** When [save] fails the answer is 500 and nothing is stored. *)
Lemma createOrder_save_fails req env (db : Store) l normalized :
  body_items req = ItemsArray l ->
  l <> [] ->
  normalizeItems l = Some normalized ->
  Forall validItem normalized ->
  save env (newOrder req env normalized) db = None ->
  createOrder req env db = (Sent (failure 500 "Failed to place order" []), db).
Proof.
  intros Hb Hne Hn Hv Hs.
  unfold createOrder. rewrite Hb. destruct l as [|e l]; [done|].
  rewrite Hn. apply (validateItems_valid 0) in Hv. rewrite Hv. simpl.
  by rewrite Hs.
Qed.

(** ** Quantities below 1 do not pass [isInt({ min: 1 })] *)

Lemma append_cons c a b : String c a +:+ b = String c (a +:+ b).
Proof. reflexivity. Qed.

Lemma digits_aux_length fuel m acc d :
  (m < 10 ^ N.of_nat d)%N ->
  String.length (Js.digits_aux fuel m acc) <= String.length acc + d.
Proof.
  revert m acc d. induction fuel as [|fuel IH]; intros m acc d Hm; simpl; [lia|].
  destruct (m =? 0)%N eqn:E; [lia|]. apply N.eqb_neq in E.
  destruct d as [|d]; [simpl in Hm; lia|].
  etransitivity; [apply (IH _ _ d)|simpl; lia].
  apply N.Div0.div_lt_upper_bound.
  replace (N.of_nat (S d)) with (N.succ (N.of_nat d)) in Hm by lia.
  by rewrite N.pow_succ_r' in Hm.
Qed.

(** A positive number below 1 has its decimal point at or before its
    first significant digit. *)
Lemma point_position m e :
  m <> 0%N ->
  Js.ltb (Js.Fin false m e) Js.one = true ->
  (Z.of_nat (String.length (Js.digits_of m)) + e <= 0)%Z.
Proof.
  intros Hm Hlt. unfold Js.ltb, Js.one, Js.scaled, Js.signed in Hlt.
  apply Z.ltb_lt in Hlt.
  destruct (Z.le_gt_cases 0 e) as [He|He].
  - rewrite Z.min_r in Hlt by done. rewrite Z.sub_0_r in Hlt. simpl in Hlt.
    assert (0 < 10 ^ e)%Z by (apply Z.pow_pos_nonneg; lia). nia.
  - rewrite Z.min_l in Hlt by lia. rewrite Z.sub_diag, Z.mul_1_r, Z.mul_1_l in Hlt.
    unfold Js.digits_of. destruct (m =? 0)%N eqn:E; [apply N.eqb_eq in E; done|].
    pose proof (digits_aux_length (N.size_nat m) m "" (Z.to_nat (- e))) as Hlen.
    simpl in Hlen. cut (m < 10 ^ N.of_nat (Z.to_nat (- e)))%N; [lia|].
    apply N2Z.inj_lt. rewrite N2Z.inj_pow. simpl Z.of_N at 2.
    replace (Z.of_N (N.of_nat (Z.to_nat (- e)))) with (0 - e)%Z by lia. done.
Qed.

Lemma read_sign_cons c r :
  Js.read_sign (String c r)
  = if decide (c = "-"%char) then (true, r)
    else if decide (c = "+"%char) then (false, r)
    else (false, String c r).
Proof. destruct c as [[] [] [] [] [] [] [] []]; reflexivity. Qed.

Lemma int_literal_second c1 c2 rest :
  Js.digit_val c2 = None ->
  Validator.int_literal (String c1 (String c2 rest)) = None.
Proof.
  intros Hc2. unfold Validator.int_literal.
  assert (Js.span_digits (String c2 rest) = ([], String c2 rest)) as Hsp
    by (simpl; by rewrite Hc2).
  rewrite read_sign_cons. repeat case_decide; [by rewrite Hsp..|].
  cbn [Js.span_digits]. rewrite Hc2.
  by destruct (Js.digit_val c1).
Qed.

Lemma int_literal_negative body z :
  Validator.int_literal (String "-" body) = Some z -> (z <= 0)%Z.
Proof.
  unfold Validator.int_literal. simpl.
  destruct (Js.span_digits body) as [[|d ds] [|c r]]; try done.
  intros [= <-]. unfold Js.signed. lia.
Qed.

Lemma isInt_below_one_number x :
  Js.ltb x Js.one = true -> Validator.isInt 1 (Js.Num x) = false.
Proof.
  intros Hlt. destruct x as [|neg|neg m e]; [done|by destruct neg|].
  unfold Validator.isInt.
  change (Validator.stringify (Js.Num (Js.Fin neg m e)))
    with (Js.number_toString (Js.round (Js.Fin neg m e))).
  unfold Js.round. destruct (Js.underflows m e); [done|].
  destruct (Js.overflows m e); [by destruct neg|].
  unfold Js.number_toString.
  destruct (m =? 0)%N eqn:Em; [done|]. apply N.eqb_neq in Em.
  destruct neg.
  - rewrite append_cons.
    destruct (Validator.int_literal _) as [z|] eqn:E; [|done].
    apply int_literal_negative in E. apply Z.leb_gt. lia.
  - pose proof (point_position m e Em Hlt) as Hn.
    set (n := (Z.of_nat (String.length (Js.digits_of m)) + e)%Z) in *.
    set (ds := Js.drop_end _ _).
    change ("" +:+ ?s) with s.
    destruct ((Z.of_nat (String.length ds) <=? n)%Z && (n <=? 21)%Z) eqn:E1.
    { apply andb_true_iff in E1 as [E1 _]. apply Z.leb_le in E1.
      destruct ds; [|simpl in E1; lia].
      replace (n - Z.of_nat (String.length ""))%Z with 0%Z by (simpl; lia). done. }
    destruct ((0 <? n)%Z && (n <=? 21)%Z) eqn:E2.
    { apply andb_true_iff in E2 as [E2 _]. apply Z.ltb_lt in E2. lia. }
    destruct ((-6 <? n)%Z && (n <=? 0)%Z).
    { rewrite !append_cons. by rewrite int_literal_second. }
    destruct ds as [|d [|d' rest]]; [done|..]; rewrite ?append_cons;
      by rewrite int_literal_second.
Qed.

Lemma digit_not_space c d : Js.digit_val c = Some d -> Js.is_space c = false.
Proof. destruct c as [[] [] [] [] [] [] [] []]; done. Qed.

Lemma span_digits_head r d ds rest :
  Js.span_digits r = (d :: ds, rest) ->
  exists c r', r = String c r' /\ Js.digit_val c = Some d.
Proof.
  destruct r as [|c r']; [done|]. simpl.
  destruct (Js.digit_val c) as [d'|] eqn:E; [|done].
  destruct (Js.span_digits r'). intros [= <- _ _]. by eexists _, _.
Qed.

(** A run of digits up to the end of the string reads as that integer. *)
Lemma decimal_literal_digits neg r ds :
  Js.span_digits r = (ds, "") -> ds <> [] ->
  Js.decimal_literal neg r = Js.nearest neg (Js.digits_value ds) 0.
Proof.
  intros Hsp Hne. destruct ds as [|d ds]; [done|].
  destruct (span_digits_head _ _ _ _ Hsp) as (c & r' & -> & Hc).
  unfold Js.decimal_literal.
  assert (String.prefix "Infinity" (String c r') = false) as ->.
  { clear -Hc. destruct c as [[] [] [] [] [] [] [] []]; done. }
  rewrite Hsp. by rewrite app_nil_r.
Qed.

Lemma isInt_below_one_string s :
  Js.ltb (Js.parseFloat_string s) Js.one = true -> Validator.isInt 1 (Js.Str s) = false.
Proof.
  intros Hlt. unfold Validator.isInt. simpl.
  destruct (Validator.int_literal s) as [z|] eqn:E; [|done].
  apply Z.leb_gt. destruct (Z.lt_ge_cases z 1) as [|Hz]; [done|]. exfalso.
  destruct s as [|c s]; [done|].
  assert (Js.is_space c = false) as Hc.
  { destruct (Js.is_space c) eqn:Es; [|done]. exfalso. revert E.
    unfold Validator.int_literal. simpl Js.span_digits.
    destruct c as [[] [] [] [] [] [] [] []]; done. }
  unfold Js.parseFloat_string in Hlt. simpl Js.trimStart in Hlt. rewrite Hc in Hlt.
  unfold Validator.int_literal in E.
  destruct (Js.read_sign (String c s)) as [neg r] eqn:Er.
  destruct (Js.span_digits r) as [[|d ds] [|c' r']] eqn:Esp; try done.
  injection E as <-.
  rewrite (decimal_literal_digits neg r (d :: ds) Esp) in Hlt by done.
  destruct neg; [simpl in Hz; lia|]. simpl in Hz.
  rewrite nearest_of_integer in Hlt.
  destruct (Js.digits_value (d :: ds) =? 0)%N eqn:E0; [apply N.eqb_eq in E0; lia|].
  destruct (Js.overflows _ _); [done|].
  apply N.eqb_neq in E0.
  by rewrite (ltb_integer_one false _ (nearest_integer_positive _ E0)) in Hlt.
Qed.

(** A quantity that passes [isInt({ min: 1 })] is not below 1. *)
Lemma isInt_not_below_one v : Validator.isInt 1 v = true -> belowOne v = false.
Proof.
  intros Hi. destruct v as [| |b|x|s]; try done; simpl.
  - destruct (Js.ltb x Js.one) eqn:E; [|done].
    by rewrite (isInt_below_one_number x E) in Hi.
  - destruct (Js.ltb (Js.parseFloat_string s) Js.one) eqn:E; [|done].
    by rewrite (isInt_below_one_string s E) in Hi.
Qed.

(** ** Names and prices the handler refuses *)

Lemma all_space_trim s : all_chars Js.is_space s = true -> Js.trim s = "".
Proof.
  intros Hs. unfold Js.trim.
  assert (Js.trimStart s = "") as ->; [|done].
  induction s as [|c s IH]; [done|]. simpl in Hs |- *.
  apply andb_true_iff in Hs as [-> Hs]. by apply IH.
Qed.

Lemma blankName_normalized it :
  blankName (raw_name it) = true -> name (normalizeItem it) = "".
Proof.
  unfold normalizeItem. simpl. destruct (raw_name it) as [| |b|x|s]; try done.
  intros Hs. destruct s as [|c s]; [done|]. by apply all_space_trim.
Qed.

Lemma leb_negative m e : Js.leb (Js.Fin true m e) Js.zero = true.
Proof.
  unfold Js.leb, Js.zero, Js.scaled, Js.signed. apply Z.leb_le.
  assert (0 <= 10 ^ (e - Z.min e 0))%Z by (apply Z.pow_nonneg; lia). nia.
Qed.

Lemma leb_zero_positive m e :
  Js.leb (Js.Fin false m e) Js.zero = true -> m = 0%N.
Proof.
  unfold Js.leb, Js.zero, Js.scaled, Js.signed. intros Hle. apply Z.leb_le in Hle.
  assert (0 < 10 ^ (e - Z.min e 0))%Z by (apply Z.pow_pos_nonneg; lia). nia.
Qed.

(** [decimal_literal] gives the sign it is handed. *)
Lemma decimal_literal_sign neg r :
  match Js.decimal_literal neg r with
  | Js.NaN => True
  | Js.Inf b | Js.Fin b _ _ => b = neg
  end.
Proof.
  unfold Js.decimal_literal. destruct (String.prefix _ _); [done|].
  destruct (Js.span_digits r) as [ip r1].
  destruct (match r1 with String "." t => Js.span_digits t | _ => ([], r1) end) as [fp r2].
  destruct (ip ++ fp) as [|d ds]; [done|].
  pose proof (nearest_sign neg (Js.digits_value (d :: ds))
                (Js.read_exponent r2 - Z.of_nat (length fp))) as Hs.
  by destruct (Js.nearest _ _ _).
Qed.

(** A number that is [NaN] or at most 0 is still so after it has been
    written and read again. *)
Lemma parseFloat_nonpositive_number x :
  Js.isNaN x || Js.leb x Js.zero = true ->
  Js.isNaN (Js.parseFloat_string (Js.number_toString x))
  || Js.leb (Js.parseFloat_string (Js.number_toString x)) Js.zero = true.
Proof.
  destruct x as [|neg|neg m e]; [done|by destruct neg|].
  intros Hle. simpl in Hle. unfold Js.number_toString.
  destruct (m =? 0)%N eqn:Em; [done|]. apply N.eqb_neq in Em.
  destruct neg; [|by apply leb_zero_positive in Hle].
  rewrite append_cons. unfold Js.parseFloat_string. simpl Js.trimStart.
  simpl Js.read_sign. cbv iota.
  match goal with
  | |- context [Js.decimal_literal true ?r] =>
      pose proof (decimal_literal_sign true r) as Hsign
  end.
  destruct (Js.decimal_literal _ _) as [|b|b m' e']; [done|by subst b|subst b].
  by rewrite leb_negative.
Qed.

Lemma unreadable_price_refused v :
  unreadableOrNonPositive v = true ->
  Js.isNaN (Js.parseFloat v) || Js.leb (Js.parseFloat v) Js.zero = true.
Proof.
  destruct v as [| |[]|x|s]; try done. apply parseFloat_nonpositive_number.
Qed.

Lemma normalizeItems_lookup l normalized i it :
  normalizeItems l = Some normalized ->
  l !! i = Some (Obj it) ->
  normalized !! i = Some (normalizeItem it).
Proof.
  revert normalized i. induction l as [|e l IH]; intros normalized i Hn Hl; [done|].
  simpl in Hn. destruct e as [|it']; [done|].
  destruct (normalizeItems l) as [r|] eqn:Er; [|done]. injection Hn as <-.
  destruct i as [|i]; simpl in *; [by injection Hl as ->|]. by apply IH.
Qed.

Lemma validateItems_lookup k l i it msg :
  l !! i = Some it ->
  msg ∈ itemErrors (k + i) it ->
  msg ∈ validateItems k l.
Proof.
  revert k i. induction l as [|it' l IH]; intros k i Hl Hin; [done|].
  simpl. apply elem_of_app. destruct i as [|i]; simpl in Hl.
  - injection Hl as ->. left. by rewrite Nat.add_0_r in Hin.
  - right. apply (IH (S k) i Hl). by replace (S k + i) with (k + S i) by lia.
Qed.

(** The messages [createOrder] lists for the item at index [i]. *)
Lemma createOrder_item_errors req env (db : Store) l normalized i it msg :
  body_items req = ItemsArray l ->
  normalizeItems l = Some normalized ->
  l !! i = Some (Obj it) ->
  msg ∈ itemErrors i (normalizeItem it) ->
  exists errs,
    createOrder req env db = (Sent (failure 400 "Validation failed" errs), db)
    /\ forall msg', msg' ∈ itemErrors i (normalizeItem it) -> msg' ∈ errs.
Proof.
  intros Hb Hn Hl Hin.
  assert (forall msg', msg' ∈ itemErrors i (normalizeItem it) ->
                       msg' ∈ validateItems 0 normalized) as Hall.
  { intros msg' Hin'.
    apply (validateItems_lookup 0 normalized i (normalizeItem it)); [|done].
    by apply (normalizeItems_lookup l). }
  unfold createOrder. rewrite Hb.
  destruct l as [|e l]; [done|]. rewrite Hn.
  destruct (validateItems 0 normalized) as [|m errs] eqn:Ev.
  - by apply Hall, elem_of_nil in Hin.
  - simpl. by eexists.
Qed.

Lemma itemErrors_name i it :
  name it = "" ->
  ("Item at index " +:+ index_text i +:+ " is missing a name") ∈ itemErrors i it.
Proof. intros Hn. unfold itemErrors. rewrite Hn. simpl. apply elem_of_cons. by left. Qed.

Lemma itemErrors_price i it :
  Js.isNaN (price it) = true \/ Js.leb (price it) Js.zero = true ->
  ("Item '" +:+ item_label i it +:+ "' has an invalid price") ∈ itemErrors i it.
Proof.
  intros Hp. unfold itemErrors.
  assert (Js.isNaN (price it) || Js.leb (price it) Js.zero = true) as ->.
  { destruct Hp as [-> | ->]; [done|by rewrite orb_true_r]. }
  apply elem_of_app. right. apply elem_of_app. left. apply elem_of_cons. by left.
Qed.

Lemma itemErrors_quantity i it :
  Js.ltb (qty it) Js.one = true ->
  ("Item '" +:+ item_label i it +:+ "' has an invalid quantity") ∈ itemErrors i it.
Proof.
  intros Hq. unfold itemErrors. rewrite Hq, orb_true_r.
  apply elem_of_app. right. apply elem_of_app. right. apply elem_of_cons. by left.
Qed.

(** ** The validation middleware in front of [createOrder] *)

Lemma handleValidationErrors_next errs :
  handleValidationErrors errs = None <-> errs = [].
Proof. unfold handleValidationErrors. by destruct errs. Qed.

Lemma handleValidationErrors_answer errs r :
  handleValidationErrors errs = Some r ->
  errs <> [] /\ r = failure 400 "Validation failed" errs.
Proof. unfold handleValidationErrors. destruct errs; [done|]. by intros [= <-]. Qed.

Lemma flat_map_nil {A B} (f : A -> list B) l x :
  flat_map f l = [] -> x ∈ l -> f x = [].
Proof.
  induction l as [|y l IH]; intros Hnil Hin; [by apply elem_of_nil in Hin|].
  simpl in Hnil. apply app_eq_nil in Hnil as [Hy Hl].
  apply elem_of_cons in Hin as [->|Hin]; [done|by apply IH].
Qed.

(** When [validateOrder] finds nothing, every element of [items] has a
    quantity that passes [isInt({ min: 1 })]; none is [null]. *)
Lemma validateOrder_quantities req l e :
  validateOrder req = [] ->
  body_items req = ItemsArray l ->
  e ∈ l ->
  Validator.isInt 1 (field raw_quantity e) = true.
Proof.
  intros Hv Hb Hin. unfold validateOrder in Hv. rewrite Hb in Hv.
  apply app_eq_nil in Hv as [_ Hv]. apply app_eq_nil in Hv as [_ Hv].
  apply app_eq_nil in Hv as [_ Hv].
  pose proof (flat_map_nil _ _ e Hv Hin) as He. unfold check in He.
  by destruct (Validator.isInt 1 _).
Qed.

(** A quantity that does not pass is reported, and the request answered
    before it reaches [createOrder]. *)
Lemma postOrder_quantity_refused req env (db : Store) l e :
  body_items req = ItemsArray l ->
  e ∈ l ->
  Validator.isInt 1 (field raw_quantity e) = false ->
  exists errs,
    postOrder req env db = (Sent (failure 400 "Validation failed" errs), db)
    /\ "Quantity must be at least 1" ∈ errs.
Proof.
  intros Hb Hin Hq.
  assert ("Quantity must be at least 1" ∈ validateOrder req) as Herr.
  { unfold validateOrder. rewrite Hb. apply elem_of_app. right.
    apply elem_of_app. right. apply elem_of_app. right.
    apply list_elem_of_In, in_flat_map. exists e. split; [by apply list_elem_of_In|].
    rewrite Hq. simpl. by left. }
  unfold postOrder, before, handleValidationErrors.
  destruct (validateOrder req) as [|m errs]; [by apply elem_of_nil in Herr|].
  simpl. by eexists.
Qed.

Lemma normalizeItems_total l :
  Nullish ∉ l -> exists normalized, normalizeItems l = Some normalized.
Proof.
  induction l as [|e l IH]; intros Hn; [by eexists|].
  apply not_elem_of_cons in Hn as [He Hl]. destruct e as [|it]; [done|].
  destruct (IH Hl) as [r Hr]. simpl. rewrite Hr. by eexists.
Qed.

(** C1, as the code has it.  [createOrder] validates the normalized
    items: when the posted items can be normalized and the item at index
    [i] has, once normalized, an empty name, a price that is [NaN] or at
    most 0, or a quantity below 1, the answer is 400 "Validation failed",
    it lists the item's own messages (the missing name under the index,
    the invalid price and the invalid quantity under the name, or under
    the index when there is no name), and nothing is stored.  The name is
    empty when the posted one is missing, empty or white space; the price
    is [NaN] or at most 0 when [parseFloat] finds no number in the posted
    one or reads one that is at most 0.  On the order route a request
    with such a name or price, or with a posted quantity below 1, is
    answered 400 "Validation failed" with at least one error and nothing
    is stored; for the quantity the errors include "Quantity must be at
    least 1" of [validateOrder]. *)
Theorem createOrder_rejects_invalid_item req env (db : Store) l i it :
  body_items req = ItemsArray l ->
  l !! i = Some (Obj it) ->
  let item := normalizeItem it in
  (forall normalized,
     normalizeItems l = Some normalized ->
     name item = "" \/ Js.isNaN (price item) = true \/ Js.leb (price item) Js.zero = true
     \/ Js.ltb (qty item) Js.one = true ->
     exists errs,
       createOrder req env db = (Sent (failure 400 "Validation failed" errs), db)
       /\ (name item = "" ->
           ("Item at index " +:+ index_text i +:+ " is missing a name") ∈ errs)
       /\ (Js.isNaN (price item) = true \/ Js.leb (price item) Js.zero = true ->
           ("Item '" +:+ item_label i item +:+ "' has an invalid price") ∈ errs)
       /\ (Js.ltb (qty item) Js.one = true ->
           ("Item '" +:+ item_label i item +:+ "' has an invalid quantity") ∈ errs))
  /\ (blankName (raw_name it) = true -> name item = "")
  /\ (unreadableOrNonPositive (raw_price it) = true ->
      Js.isNaN (price item) = true \/ Js.leb (price item) Js.zero = true)
  /\ (blankName (raw_name it) = true \/ unreadableOrNonPositive (raw_price it) = true
      \/ belowOne (raw_quantity it) = true ->
      exists errs,
        errs <> []
        /\ postOrder req env db = (Sent (failure 400 "Validation failed" errs), db)
        /\ (belowOne (raw_quantity it) = true -> "Quantity must be at least 1" ∈ errs)).
Proof.
  intros Hb Hl item.
  assert (forall normalized,
     normalizeItems l = Some normalized ->
     name item = "" \/ Js.isNaN (price item) = true \/ Js.leb (price item) Js.zero = true
     \/ Js.ltb (qty item) Js.one = true ->
     exists errs,
       createOrder req env db = (Sent (failure 400 "Validation failed" errs), db)
       /\ forall msg, msg ∈ itemErrors i item -> msg ∈ errs) as Hhandler.
  { intros normalized Hn Hbad.
    assert (exists msg, msg ∈ itemErrors i item) as [msg Hmsg].
    { destruct Hbad as [Hc|[Hc|[Hc|Hc]]]; eexists.
      - by apply itemErrors_name.
      - apply itemErrors_price. by left.
      - apply itemErrors_price. by right.
      - by apply itemErrors_quantity. }
    apply (createOrder_item_errors req env db l normalized i it msg Hb Hn Hl Hmsg). }
  assert (unreadableOrNonPositive (raw_price it) = true ->
          Js.isNaN (price item) = true \/ Js.leb (price item) Js.zero = true) as Hprice.
  { intros Hp. apply unreadable_price_refused in Hp. by apply orb_true_iff in Hp. }
  assert (Obj it ∈ l) as Hin by (by apply list_elem_of_lookup_2 with i).
  split; [|split; [|split]].
  - intros normalized Hn Hbad.
    destruct (Hhandler normalized Hn Hbad) as (errs & Hrun & Hall).
    exists errs. split; [exact Hrun|]. split; [|split].
    + intros Hc. by apply Hall, itemErrors_name.
    + intros Hc. by apply Hall, itemErrors_price.
    + intros Hc. by apply Hall, itemErrors_quantity.
  - apply blankName_normalized.
  - exact Hprice.
  - intros Hbad.
    destruct (Validator.isInt 1 (raw_quantity it)) eqn:Eq.
    + pose proof (isInt_not_below_one _ Eq) as Hq.
      assert (name item = "" \/ Js.isNaN (price item) = true
              \/ Js.leb (price item) Js.zero = true \/ Js.ltb (qty item) Js.one = true)
        as Hbad'.
      { destruct Hbad as [Hc|[Hc|Hc]]; [|destruct (Hprice Hc); by auto|congruence].
        left. by apply blankName_normalized. }
      unfold postOrder, before.
      destruct (handleValidationErrors (validateOrder req)) as [r|] eqn:Ev.
      { apply handleValidationErrors_answer in Ev as [Hne ->].
        eexists. split; [exact Hne|]. split; [done|]. congruence. }
      apply handleValidationErrors_next in Ev.
      destruct (normalizeItems_total l) as [normalized Hn].
      { intros Hnull. by pose proof (validateOrder_quantities req l _ Ev Hb Hnull). }
      destruct (Hhandler normalized Hn Hbad') as (errs & Hrun & Hall).
      exists errs. split; [|split; [exact Hrun|congruence]].
      intros ->. destruct Hbad' as [Hc|[Hc|[Hc|Hc]]].
      * destruct (not_elem_of_nil _ (Hall _ (itemErrors_name i item Hc))).
      * destruct (not_elem_of_nil _ (Hall _ (itemErrors_price i item (or_introl Hc)))).
      * destruct (not_elem_of_nil _ (Hall _ (itemErrors_price i item (or_intror Hc)))).
      * destruct (not_elem_of_nil _ (Hall _ (itemErrors_quantity i item Hc))).
    + destruct (postOrder_quantity_refused req env db l (Obj it) Hb Hin Eq)
        as (errs & Hrun & Herr).
      exists errs. split; [|by split].
      intros ->. by apply elem_of_nil in Herr.
Qed.

(** The order route on a request that passes both validations. *)
Lemma postOrder_places_order req env (db : Store) l normalized :
  validateOrder req = [] ->
  body_items req = ItemsArray l ->
  l <> [] ->
  normalizeItems l = Some normalized ->
  Forall validItem normalized ->
  save_ok env = true ->
  db !! fresh_id env = None ->
  postOrder req env db
  = (Sent (ok 201 "Order placed successfully"
             (Created (fresh_id env) (generateOrderNumber env) "placed"
                      (calculateOrderTotal normalized) (now env))),
     <[fresh_id env := newOrder req env normalized]> db).
Proof.
  intros Hv Hb Hne Hn Hval Hs Hf. unfold postOrder, before. rewrite Hv. simpl.
  unfold createOrder. rewrite Hb. destruct l as [|e l]; [done|].
  rewrite Hn. apply (validateItems_valid 0) in Hval. rewrite Hval. simpl.
  unfold save. by rewrite Hs, (bool_decide_eq_true_2 _ Hf).
Qed.

End Properties.

(** * Instances on the sample data *)

(** [createOrder] alone turns a quantity of 0 into the default 1; on
    the route [validateOrder] refuses it first. *)
Example createOrder_defaults_zero_quantity :
  let its := [Obj (rawTea (Js.Num (Js.of_Z 3)) (Js.Num Js.zero))] in
  map qty <$> normalizeItems its = Some [Js.one]
  /\ answer (@createOrder sampleHelpers (orderRequest its) sampleEnv ∅).1
     = Some (201, "Order placed successfully", [])
  /\ answer (@postOrder sampleHelpers (orderRequest its) sampleEnv ∅).1
     = Some (400, "Validation failed", ["Quantity must be at least 1"]).
Proof. vm_compute. repeat split. Qed.

(** [updateOrderPayment] alone lower-cases and trims the status; on the
    route [validateOrderPayment] refuses a status that is not one of the
    four as submitted. *)
Example updateOrderPayment_normalizes_status :
  let req := paymentRequest orderA " PAID " in
  answer (@updateOrderPayment sampleHelpers req sampleEnv sampleDb).1
  = Some (200, "Order payment updated successfully", [])
  /\ answer (@patchPayment sampleHelpers req sampleEnv sampleDb).1
     = Some (400, "Validation failed", ["Invalid payment status"]).
Proof. vm_compute. repeat split. Qed.

(** A price below the range of binary64 is 0 to [createOrder], a
    quantity above it an infinity. *)
Example createOrder_out_of_range :
  let tiny := [Obj (rawTea (Js.Str "1e-400") (Js.Num Js.one))] in
  let huge := [Obj (rawTea (Js.Num (Js.of_Z 3)) (Js.Str (String "9" (Js.zeros 309))))] in
  answer (@createOrder sampleHelpers (orderRequest tiny) sampleEnv ∅).1
  = Some (400, "Validation failed", ["Item 'Tea' has an invalid price"])
  /\ map qty <$> normalizeItems huge = Some [Js.Inf false]
  /\ answer (@createOrder sampleHelpers (orderRequest huge) sampleEnv ∅).1
     = Some (201, "Order placed successfully", []).
Proof. vm_compute. repeat split. Qed.

Example postOrder_numeric_prefix_placed :
  let its := [Obj (rawTea (Js.Str "12abc") (Js.Num Js.one))] in
  nonPositiveOrNonNumeric (Js.Str "12abc") = true
  /\ map price <$> normalizeItems its = Some [Js.of_Z 12]
  /\ answer (@postOrder sampleHelpers (orderRequest its) sampleEnv ∅).1
     = Some (201, "Order placed successfully", []).
Proof. vm_compute. repeat split. Qed.

(** C1, as stated, fails: a price of "12abc" is not numeric, yet
    [parseFloat] reads 12 from it and the order is placed (201), so it is
    not true that every request with a non-positive or non-numeric price
    is answered 400 "Validation failed". *)
Lemma postOrder_accepts_numeric_prefix :
  ~ (forall req env (db : gmap string (@Order sampleHelpers)) l it,
       body_items req = ItemsArray l ->
       Obj it ∈ l ->
       blankName (raw_name it) = true
       \/ nonPositiveOrNonNumeric (raw_price it) = true
       \/ belowOne (raw_quantity it) = true ->
       exists errs,
         @postOrder sampleHelpers req env db
         = (Sent (failure 400 "Validation failed" errs), db)).
Proof.
  intros Hall.
  destruct (Hall (orderRequest [Obj (rawTea (Js.Str "12abc") (Js.Num Js.one))])
              sampleEnv ∅ [Obj (rawTea (Js.Str "12abc") (Js.Num Js.one))]
              (rawTea (Js.Str "12abc") (Js.Num Js.one)))
    as [errs E].
  - reflexivity.
  - apply list_elem_of_singleton. reflexivity.
  - right. left. reflexivity.
  - apply (f_equal (fun p => answer p.1)) in E.
    assert (answer (@postOrder sampleHelpers
              (orderRequest [Obj (rawTea (Js.Str "12abc") (Js.Num Js.one))])
              sampleEnv ∅).1
            = Some (201, "Order placed successfully", [])) as E'
      by (vm_compute; reflexivity).
    rewrite E' in E. discriminate E.
Qed.

Lemma sampleDb_served : sampleDb !! orderA = Some (sampleOrder "served" (Some bobId)).
Proof. apply lookup_insert_eq. Qed.

Lemma sampleDb_completed :
  sampleDb !! orderB = Some (sampleOrder "completed" (Some aliceId)).
Proof. unfold sampleDb. rewrite lookup_insert_ne by done. apply lookup_singleton_eq. Qed.

Lemma sampleDb_fresh : sampleDb !! orderC = None.
Proof.
  unfold sampleDb. rewrite lookup_insert_ne by done. by apply lookup_singleton_ne.
Qed.


Lemma createOrder_without_items_witness :
  @createOrder sampleHelpers (idRequest None "") sampleEnv sampleDb
  = (Sent (failure 400 "Order must contain at least one item" []), sampleDb).
Proof.
  apply (@createOrder_without_items sampleHelpers). left. reflexivity.
Defined.

Lemma cancelOrder_guarded_witness :
  @cancelOrder sampleHelpers (idRequest (Some customer) orderB) sampleDb
  = (Sent (failure 404 "Order not found or cannot be canceled" []), sampleDb)
  /\ @cancelOrder sampleHelpers (idRequest (Some customer) orderA) sampleDb
     = (Sent (ok 200 "Order canceled" (IdOf orderA)),
        <[orderA := applySet (setStatus "canceled") (sampleOrder "served" (Some bobId))]>
          sampleDb).
Proof.
  split.
  - apply (@cancelOrder_guarded sampleHelpers (idRequest (Some customer) orderB)
             sampleDb _ sampleDb_completed).
    left. reflexivity.
  - apply (@cancelOrder_guarded sampleHelpers (idRequest (Some customer) orderA)
             sampleDb _ sampleDb_served).
    intros [E|E]; discriminate E.
Defined.

Lemma postCancel_any_user_witness :
  customerId (sampleOrder "served" (Some bobId)) <> Some (user_id stranger)
  /\ exists o',
       @postCancel sampleHelpers (idRequest (Some stranger) orderA) sampleDb
       = (Sent (ok 200 "Order canceled" (IdOf orderA)), <[orderA := o']> sampleDb)
       /\ status o' = "canceled"
       /\ sameButStatus (sampleOrder "served" (Some bobId)) o'.
Proof.
  split; [discriminate|].
  apply (@postCancel_any_user sampleHelpers (idRequest (Some stranger) orderA)
           sampleDb stranger (sampleOrder "served" (Some bobId))).
  - reflexivity.
  - reflexivity.
  - exact sampleDb_served.
  - intros [E|E]; discriminate E.
Defined.

Lemma updateOrderStatus_unconditional_witness :
  let req := sampleRequest (Some staff) orderB (Js.Str "preparing") Js.Undefined
               ItemsAbsent in
  @updateOrderStatus sampleHelpers req sampleDb
  = (Sent (ok 200 "Order status updated" (StatusOf orderB "preparing")),
     <[orderB := applySet (setStatus "preparing") (sampleOrder "completed" (Some aliceId))]>
       sampleDb)
  /\ @patchStatus sampleHelpers req sampleDb = @updateOrderStatus sampleHelpers req sampleDb.
Proof.
  intros req.
  destruct (@updateOrderStatus_unconditional sampleHelpers req sampleDb
              (sampleOrder "completed" (Some aliceId)) "preparing")
    as (Hrun & _ & Hroute).
  - exact sampleDb_completed.
  - apply elem_of_cons. right. apply elem_of_cons. left. reflexivity.
  - reflexivity.
  - split; [exact Hrun|]. apply (Hroute staff); [reflexivity|].
    apply elem_of_cons. left. reflexivity.
Defined.

Lemma updateOrderPayment_promotes_witness :
  exists resp o',
    @updateOrderPayment sampleHelpers (paymentRequest orderA "paid") sampleEnv sampleDb
    = (Sent resp, <[orderA := o']> sampleDb)
    /\ code resp = 200
    /\ pay_status (payment o') = "paid"
    /\ status o' = "completed".
Proof.
  destruct (@updateOrderPayment_promotes sampleHelpers (paymentRequest orderA "paid")
              sampleEnv sampleDb (sampleOrder "served" (Some bobId)) "paid")
    as (resp & o' & Hrun & Hcode & Hpay & Hpromote & _).
  - exact sampleDb_served.
  - reflexivity.
  - apply elem_of_cons. right. apply elem_of_cons. left. reflexivity.
  - right. exists "Cash". reflexivity.
  - exists resp, o'. repeat split; [exact Hrun|exact Hcode|exact Hpay|].
    apply Hpromote. split; reflexivity.
Defined.

Lemma updates_keep_items_and_totals_witness :
  (exists o',
     (@updateOrderStatus sampleHelpers (paymentRequest orderA "ready") sampleDb).2 !! orderA
     = Some o'
     /\ sameButStatus (sampleOrder "served" (Some bobId)) o')
  /\ (exists o',
        (@updateOrderPayment sampleHelpers (paymentRequest orderA "paid") sampleEnv
           sampleDb).2 !! orderA = Some o'
        /\ items o' = [tea] /\ totals o' = Js.Fin false 50 (-1)).
Proof.
  split.
  - apply (@updates_keep_items_and_totals sampleHelpers (paymentRequest orderA "ready")
             sampleEnv sampleDb orderA _ sampleDb_served).
  - destruct (@updates_keep_items_and_totals sampleHelpers (paymentRequest orderA "paid")
                sampleEnv sampleDb orderA _ sampleDb_served)
      as [_ (o' & Hl & Hsame & _)].
    exists o'. split; [exact Hl|].
    destruct Hsame as (_ & _ & _ & Hi & Ht & _). split; [exact Hi|exact Ht].
Defined.

Lemma createOrder_places_order_witness :
  let req := orderRequest [Obj (rawTea (Js.Num (Js.Fin false 25 (-1))) (Js.Num (Js.of_Z 2)))] in
  @createOrder sampleHelpers req sampleEnv sampleDb
  = (Sent (ok 201 "Order placed successfully"
             (@Created sampleHelpers orderC "ORD-0042" "placed" (sampleTotal [tea])
                1700000000000)),
     <[orderC := newOrder req sampleEnv [tea]]> sampleDb).
Proof.
  intros req.
  refine (proj1 (@createOrder_places_order sampleHelpers req sampleEnv sampleDb
                   [Obj (rawTea (Js.Num (Js.Fin false 25 (-1))) (Js.Num (Js.of_Z 2)))]
                   [tea] _ _ _ _ _ _)).
  - reflexivity.
  - discriminate.
  - vm_compute. reflexivity.
  - constructor; [|constructor]. unfold validItem. split; [discriminate|].
    split; reflexivity.
  - reflexivity.
  - exact sampleDb_fresh.
Defined.

Lemma createOrder_rejects_invalid_item_witness :
  (exists errs,
     @createOrder sampleHelpers
       (orderRequest [Obj (rawTea (Js.Num (Js.of_Z 3)) (Js.Num Js.one));
                      Obj (rawTea (Js.Str "abc") (Js.Num Js.one))]) sampleEnv sampleDb
     = (Sent (failure 400 "Validation failed" errs), sampleDb)
     /\ "Item 'Tea' has an invalid price" ∈ errs)
  /\ (exists errs,
        @postOrder sampleHelpers
          (orderRequest [Obj (rawTea (Js.Num (Js.of_Z 3)) (Js.Num Js.zero))])
          sampleEnv sampleDb
        = (Sent (failure 400 "Validation failed" errs), sampleDb)
        /\ "Quantity must be at least 1" ∈ errs).
Proof.
  split.
  - destruct (proj1 (@createOrder_rejects_invalid_item sampleHelpers
                       (orderRequest [Obj (rawTea (Js.Num (Js.of_Z 3)) (Js.Num Js.one));
                                      Obj (rawTea (Js.Str "abc") (Js.Num Js.one))])
                       sampleEnv sampleDb _ 1 (rawTea (Js.Str "abc") (Js.Num Js.one))
                       eq_refl eq_refl)
                [normalizeItem (rawTea (Js.Num (Js.of_Z 3)) (Js.Num Js.one));
                 normalizeItem (rawTea (Js.Str "abc") (Js.Num Js.one))])
      as (errs & Hrun & _ & Hprice & _).
    + reflexivity.
    + right. left. reflexivity.
    + exists errs. split; [exact Hrun|]. apply Hprice. left. reflexivity.
  - destruct (proj2 (proj2 (proj2 (@createOrder_rejects_invalid_item sampleHelpers
                                     (orderRequest [Obj (rawTea (Js.Num (Js.of_Z 3))
                                                           (Js.Num Js.zero))])
                                     sampleEnv sampleDb _ 0
                                     (rawTea (Js.Num (Js.of_Z 3)) (Js.Num Js.zero))
                                     eq_refl eq_refl))))
      as (errs & _ & Hrun & Herr).
    + right. right. reflexivity.
    + exists errs. split; [exact Hrun|]. apply Herr. reflexivity.
Defined.



Lemma listOrders_role_scoped_witness :
  (exists orders,
     @listOrders sampleHelpers (idRequest (Some staff) "") sampleDb
     = (Sent (ok 200 "Orders retrieved" (Page orders 1 20 2 1)), sampleDb)
     /\ pageOf (passesFilters (idRequest (Some staff) "")) 1 20 sampleDb orders)
  /\ (exists orders,
        @listOrders sampleHelpers (idRequest (Some customer) "") sampleDb
        = (Sent (ok 200 "Orders retrieved" (Page orders 1 20 1 1)), sampleDb)
        /\ pageOf (fun o => bool_decide (customerId o = Some bobId)) 1 20 sampleDb orders)
  /\ @listOrders sampleHelpers (idRequest None "") sampleDb
     = (Sent (failure 401 "Authentication required to list orders" []), sampleDb).
Proof.
  assert (forall u, exactPage (idRequest u "")) as Hx
    by (intros u; repeat split; by vm_compute).
  split; [|split].
  - destruct (proj1 (proj2 (proj1 (@listOrders_role_scoped sampleHelpers
                                     (idRequest (Some staff) "") sampleDb)
                              staff eq_refl (or_introl eq_refl))))
      as (orders & Hrun & Hpage).
    + apply Hx.
    + by vm_compute.
    + exists orders. split; [|exact Hpage]. rewrite Hrun.
      assert (length (kept (passesFilters (idRequest (Some staff) "")) sampleDb) = 2)
        as -> by (vm_compute; reflexivity).
      reflexivity.
  - destruct (proj1 (proj1 (proj2 (@listOrders_role_scoped sampleHelpers
                                     (idRequest (Some customer) "") sampleDb))
                       customer eq_refl
                       (fun He => match He with
                                  | or_introl E => ltac:(discriminate E)
                                  | or_intror E => ltac:(discriminate E)
                                  end)))
      as (orders & Hrun & Hpage).
    + apply Hx.
    + by vm_compute.
    + exists orders. split; [|exact Hpage]. rewrite Hrun.
      assert (length (kept (fun o => bool_decide (customerId o = Some (user_id customer)))
                        sampleDb) = 1)
        as -> by (vm_compute; reflexivity).
      reflexivity.
  - apply (proj2 (proj2 (@listOrders_role_scoped sampleHelpers (idRequest None "")
                           sampleDb))).
    reflexivity.
Defined.

(** * Further properties of the handlers *)

Section Further.

Context `{Helpers}.

(** ** [createOrder]: null elements, answers, and what it stores *)

Lemma normalizeItems_null l : Nullish ∈ l -> normalizeItems l = None.
Proof.
  induction l as [|e l IH]; intros Hin; [by apply elem_of_nil in Hin|].
  destruct e as [|it]; [done|]. simpl.
  apply elem_of_cons in Hin as [Hin|Hin]; [done|]. by rewrite IH.
Qed.

Lemma normalizeItems_length l normalized :
  normalizeItems l = Some normalized -> length normalized = length l.
Proof.
  revert normalized. induction l as [|e l IH]; intros normalized Hn.
  - by injection Hn as <-.
  - simpl in Hn. destruct e as [|it]; [done|].
    destruct (normalizeItems l) as [r|]; [|done]. injection Hn as <-.
    simpl. by rewrite (IH r).
Qed.

(** The five ways [createOrder] ends. *)
Lemma createOrder_cases req env (db : Store) :
  createOrder req env db = (Sent noItems, db)
  \/ createOrder req env db = (Thrown "TypeError", db)
  \/ (exists errs, errs <> []
        /\ createOrder req env db = (Sent (failure 400 "Validation failed" errs), db))
  \/ createOrder req env db = (Sent (failure 500 "Failed to place order" []), db)
  \/ (exists normalized,
        normalized <> [] /\ Forall validItem normalized
        /\ db !! fresh_id env = None
        /\ createOrder req env db
           = (Sent (ok 201 "Order placed successfully"
                      (Created (fresh_id env) (generateOrderNumber env) "placed"
                               (calculateOrderTotal normalized) (now env))),
              <[fresh_id env := newOrder req env normalized]> db)).
Proof.
  unfold createOrder.
  destruct (body_items req) as [| |[|e l]]; [by left..|].
  destruct (normalizeItems (e :: l)) as [normalized|] eqn:Hn; [|by right; left].
  destruct (validateItems 0 normalized) as [|m errs] eqn:Hv.
  - simpl. unfold save.
    destruct (save_ok env); simpl; [|by do 3 right; left].
    case_bool_decide as Hf; [|by do 3 right; left].
    do 4 right. exists normalized. repeat split; [|by apply (validateItems_valid 0)|done].
    intros ->. by apply normalizeItems_length in Hn.
  - right. right. left. by exists (m :: errs).
Qed.

(** X1: a [null] among the posted items makes [createOrder] throw (it
    reads a property of the element) and store nothing; on the order
    route such a request never reaches it and is answered 400. *)
Theorem createOrder_null_element req env (db : Store) l :
  body_items req = ItemsArray l ->
  Nullish ∈ l ->
  createOrder req env db = (Thrown "TypeError", db)
  /\ exists errs,
       errs <> []
       /\ postOrder req env db = (Sent (failure 400 "Validation failed" errs), db).
Proof.
  intros Hb Hin. split.
  - unfold createOrder. rewrite Hb.
    destruct l as [|e l]; [by apply elem_of_nil in Hin|].
    by rewrite (normalizeItems_null _ Hin).
  - unfold postOrder, before.
    destruct (handleValidationErrors (validateOrder req)) as [r|] eqn:Ev.
    + apply handleValidationErrors_answer in Ev as [Hne ->]. by eexists.
    + apply handleValidationErrors_next in Ev.
      by pose proof (validateOrder_quantities req l _ Ev Hb Hin).
Qed.

(** X3: [createOrder] never touches a stored order: the collection
    either stays as it is, or gains exactly one document under a new
    [_id], and it gains one exactly when the answer is 201. *)
Theorem createOrder_only_adds req env (db : Store) :
  (forall id o, db !! id = Some o -> (createOrder req env db).2 !! id = Some o)
  /\ ((createOrder req env db).2 = db
      /\ (forall r, (createOrder req env db).1 = Sent r -> code r <> 201)
      \/ size (createOrder req env db).2 = S (size db)
         /\ exists r, (createOrder req env db).1 = Sent r /\ code r = 201).
Proof.
  destruct (createOrder_cases req env db)
    as [E|[E|[(errs & _ & E)|[E|(nl & _ & _ & Hf & E)]]]]; rewrite E; simpl.
  1-4: split; [done|]; left; split; [done|]; by intros r [= <-].
  split.
  - intros id o Hl. rewrite lookup_insert_ne; [done|]. intros <-. congruence.
  - right. split; [by apply map_size_insert_None|]. by eexists.
Qed.

(** ** [createOrder]: the quantity, and where an error points *)

Lemma parseInt_string_shape s :
  Js.parseInt_string s = Js.NaN
  \/ (exists neg, Js.parseInt_string s = Js.Inf neg)
  \/ exists neg m, Js.parseInt_string s = Js.Fin neg m 0.
Proof.
  unfold Js.parseInt_string. destruct (Js.read_sign _) as [neg r].
  destruct (Js.span_digits r) as [[|d ds] rest]; [by left|]. right.
  rewrite nearest_of_integer. destruct (_ =? 0)%N; [right; by eexists _, _|].
  destruct (Js.overflows _ _); [left; by eexists|right; by eexists _, _].
Qed.

(** X4: the quantity [createOrder] works with is never [NaN] and never
    0: it is a non-zero integer or an infinity, and 1 when nothing usable
    was posted.  So the [Number.isNaN(it.qty)] test never holds, and the
    "invalid quantity" error is raised for negative quantities only. *)
Theorem normalized_quantity it :
  let q := qty (normalizeItem it) in
  Js.isNaN q = false
  /\ Js.truthy_number q = true
  /\ (exists neg,
        Js.ltb q Js.one = neg
        /\ (q = Js.Inf neg \/ exists m, m <> 0%N /\ q = Js.Fin neg m 0))
  /\ (Js.truthy_number (Js.parseInt (Js.or (raw_quantity it) (raw_qty it))) = false ->
      q = Js.one).
Proof.
  unfold normalizeItem, Js.parseInt. simpl.
  destruct (parseInt_string_shape
              (Js.toString (Js.or (raw_quantity it) (raw_qty it))))
    as [->|[[neg ->]|(neg & m & ->)]].
  - repeat split. exists false. split; [done|]. right. by exists 1%N.
  - repeat split; [|done]. exists neg. split; [by destruct neg|by left].
  - unfold Js.or_number. simpl. destruct (m =? 0)%N eqn:E; simpl.
    + repeat split. exists false. split; [done|]. right. by exists 1%N.
    + assert (m <> 0%N) as Hm by (by apply N.eqb_neq).
      repeat split; [by rewrite E| |done].
      exists neg. split; [by apply ltb_integer_one|]. right. by exists m.
Qed.

(** X5: an item without a name is reported under its own position:
    when the item at index [i] has a missing, empty or blank name, the
    400 answer lists "Item at index i is missing a name". *)
Theorem createOrder_reports_index req env (db : Store) l normalized i it :
  body_items req = ItemsArray l ->
  normalizeItems l = Some normalized ->
  l !! i = Some (Obj it) ->
  blankName (raw_name it) = true ->
  exists errs,
    createOrder req env db = (Sent (failure 400 "Validation failed" errs), db)
    /\ ("Item at index " +:+ index_text i +:+ " is missing a name") ∈ errs.
Proof.
  intros Hb Hn Hl Hblank.
  assert (("Item at index " +:+ index_text i +:+ " is missing a name")
            ∈ validateItems 0 normalized) as Hin.
  { apply (validateItems_lookup 0 normalized i (normalizeItem it)).
    - by apply (normalizeItems_lookup l).
    - unfold itemErrors. rewrite (blankName_normalized it Hblank). simpl.
      apply elem_of_cons. by left. }
  unfold createOrder. rewrite Hb.
  destruct l as [|e l]; [done|]. rewrite Hn.
  destruct (validateItems 0 normalized) as [|m errs]; [by apply elem_of_nil in Hin|].
  by eexists.
Qed.

Lemma int_literal_positive s z :
  Validator.int_literal s = Some z -> (1 <= z)%Z ->
  Js.truthy_number (Js.parseInt_string s) = true
  /\ Js.leb Js.one (Js.parseInt_string s) = true.
Proof.
  intros E Hz. destruct s as [|c s]; [done|].
  assert (Js.is_space c = false) as Hc.
  { destruct (Js.is_space c) eqn:Es; [|done]. exfalso. revert E.
    unfold Validator.int_literal. simpl Js.span_digits.
    destruct c as [[] [] [] [] [] [] [] []]; done. }
  unfold Js.parseInt_string. simpl Js.trimStart. rewrite Hc.
  unfold Validator.int_literal in E.
  destruct (Js.read_sign (String c s)) as [neg r].
  destruct (Js.span_digits r) as [[|d ds] [|c' r']]; try done.
  injection E as <-.
  destruct neg; simpl in Hz; [lia|].
  rewrite nearest_of_integer.
  destruct (Js.digits_value (d :: ds) =? 0)%N eqn:E0; [apply N.eqb_eq in E0; lia|].
  destruct (Js.overflows _ _); [done|]. apply N.eqb_neq in E0.
  pose proof (nearest_integer_positive _ E0) as Hn. split.
  - simpl. by destruct (N.eqb_spec (Js.nearest_integer (Js.digits_value (d :: ds))) 0).
  - rewrite leb_ltb by done. by rewrite ltb_integer_one.
Qed.

(** A quantity that passes [isInt({ min: 1 })] is truthy, and its string
    form is the one the validator saw. *)
Lemma isInt_truthy v z :
  Validator.int_literal (Validator.stringify v) = Some z -> (1 <= z)%Z ->
  Js.truthy v = true /\ Js.toString v = Validator.stringify v.
Proof.
  intros E Hz. destruct v as [| |[]|[|neg|neg m e]|[|c s]]; try done.
  split; [|done]. revert E.
  unfold Validator.stringify, Js.toString, Js.truthy, Js.round.
  destruct (Js.underflows m e); [intros [= <-]; lia|].
  destruct (Js.overflows m e); [done|].
  unfold Js.number_toString. simpl.
  destruct (m =? 0)%N; [intros [= <-]; lia|done].
Qed.

(** X6: on the order route [createOrder]'s own quantity test never
    fires: when [validateOrder] finds nothing, the normalized quantity of
    every item is at least 1; for a quantity posted as a number or as a
    string it is what [parseInt] reads in it, so the fallbacks ([qty], 1)
    play no part. *)
Theorem validated_quantity req l it :
  validateOrder req = [] ->
  body_items req = ItemsArray l ->
  Obj it ∈ l ->
  Js.leb Js.one (qty (normalizeItem it)) = true
  /\ ((exists x, raw_quantity it = Js.Num x) \/ (exists s, raw_quantity it = Js.Str s) ->
      qty (normalizeItem it) = Js.parseInt (raw_quantity it)).
Proof.
  intros Hv Hb Hin.
  pose proof (validateOrder_quantities req l _ Hv Hb Hin) as Hi. simpl in Hi.
  unfold Validator.isInt in Hi.
  destruct (Validator.int_literal _) as [z|] eqn:E; [|done].
  apply Z.leb_le in Hi.
  destruct (isInt_truthy _ z E Hi) as [Ht Hs]. rewrite <- Hs in E.
  destruct (int_literal_positive _ z E Hi) as [Hq Hle].
  assert (qty (normalizeItem it) = Js.parseInt (raw_quantity it)) as ->.
  { unfold normalizeItem, Js.parseInt, Js.or, Js.or_number. simpl. by rewrite Ht, Hq. }
  done.
Qed.

(** ** The update handlers: how they end *)

Lemma updateOrderStatus_hit req (db : Store) o st :
  db !! params_id req = Some o ->
  body_status req = Js.Str st ->
  st ∈ orderStatuses ->
  updateOrderStatus req db
  = (Sent (ok 200 "Order status updated" (StatusOf (params_id req) st)),
     <[params_id req := applySet (setStatus st) o]> db).
Proof.
  intros Hl Hb Hin. unfold updateOrderStatus, findByIdAndUpdate.
  rewrite Hb, (isValidOrderStatus_member _ Hin). simpl.
  rewrite (findOneAndUpdate_hit _ _ _ _ o Hl eq_refl).
  by destruct (applySet_setStatus st o) as [-> _].
Qed.

(** The answers to an id that names no document: not found, or the
    CastError of an id that cannot be cast. *)
Lemma updateOrderStatus_unknown req (db : Store) st :
  db !! params_id req = None ->
  body_status req = Js.Str st ->
  st ∈ orderStatuses ->
  updateOrderStatus req db
  = (if castsToObjectId (params_id req)
     then Sent (failure 404 "Order not found" []) else Thrown "CastError", db).
Proof.
  intros Hl Hb Hin. unfold updateOrderStatus, findByIdAndUpdate.
  rewrite Hb, (isValidOrderStatus_member _ Hin). simpl.
  rewrite findOneAndUpdate_absent by done. by destruct (castsToObjectId _).
Qed.

(** The ways [updateOrderStatus] ends. *)
Lemma updateOrderStatus_cases req (db : Store) :
  (isValidOrderStatus (body_status req) = false
   /\ updateOrderStatus req db = (Sent (failure 400 "Invalid status" []), db))
  \/ (db !! params_id req = None
      /\ updateOrderStatus req db
         = (if castsToObjectId (params_id req)
            then Sent (failure 404 "Order not found" []) else Thrown "CastError", db))
  \/ (exists o st,
        db !! params_id req = Some o /\ body_status req = Js.Str st /\ st ∈ orderStatuses
        /\ updateOrderStatus req db
           = (Sent (ok 200 "Order status updated" (StatusOf (params_id req) st)),
              <[params_id req := applySet (setStatus st) o]> db)).
Proof.
  destruct (isValidOrderStatus (body_status req)) eqn:Ev.
  - right. unfold isValidOrderStatus in Ev.
    destruct (body_status req) as [| |b|x|st] eqn:Hb; try done.
    apply bool_decide_eq_true in Ev.
    destruct (db !! params_id req) as [o|] eqn:Hl.
    + right. exists o, st. repeat split; try done. by apply updateOrderStatus_hit.
    + left. split; [done|]. by apply updateOrderStatus_unknown with st.
  - left. split; [done|]. unfold updateOrderStatus. by rewrite Ev.
Qed.

Lemma methodUsable_dec v :
  methodUsable v \/ (Js.truthy v = true /\ forall s, v <> Js.Str s).
Proof.
  destruct v as [| |[]|x|s]; try (by left; left); try (by right).
  - destruct (Js.truthy (Js.Num x)) eqn:E; [by right|by left; left].
  - left. right. by eexists.
Qed.

(** The five ways [updateOrderPayment] ends. *)
Lemma updateOrderPayment_cases req env (db : Store) :
  ((forall s, body_status req <> Js.Str s)
   /\ updateOrderPayment req env db = (Thrown "TypeError", db))
  \/ exists s, body_status req = Js.Str s
     /\ ((Js.truthy (body_method req) = true /\ (forall m, body_method req <> Js.Str m)
          /\ updateOrderPayment req env db = (Thrown "TypeError", db))
         \/ methodUsable (body_method req)
            /\ (((Js.trim (Js.toLowerCase s) ∉ validPaymentStatuses)
                 /\ updateOrderPayment req env db
                    = (Sent (failure 400 "Invalid payment status"
                               ["Payment status must be one of: pending, paid, failed, refunded"]),
                       db))
                \/ (Js.trim (Js.toLowerCase s) ∈ validPaymentStatuses)
                   /\ ((db !! params_id req = None
                        /\ updateOrderPayment req env db
                           = (Sent (if castsToObjectId (params_id req)
                                    then failure 404 "Order not found" []
                                    else paymentFailed (castErrorMessage (params_id req))),
                              db))
                       \/ exists o,
                            db !! params_id req = Some o
                            /\ let o' := applySet (updateData (Js.trim (Js.toLowerCase s))
                                                     (submittedMethod (body_method req))
                                                     (status o) env) o in
                               updateOrderPayment req env db
                               = (Sent (ok 200 "Order payment updated successfully"
                                          (PaymentOf (params_id req) (payment o') (status o'))),
                                  <[params_id req := o']> db)))).
Proof.
  destruct (body_status req) as [| |b|x|s] eqn:Hb;
    try (left; split; [done|]; unfold updateOrderPayment; by rewrite Hb).
  right. exists s. split; [done|].
  destruct (methodUsable_dec (body_method req)) as [Hm|[Ht Hns]].
  - right. split; [done|].
    destruct (decide (Js.trim (Js.toLowerCase s) ∈ validPaymentStatuses)) as [Hin|Hout].
    + right. split; [done|].
      destruct (db !! params_id req) as [o|] eqn:Hl.
      * right. exists o. split; [done|]. simpl.
        unfold updateOrderPayment. rewrite Hb. simpl.
        assert (exists m0,
          (if Js.truthy (body_method req)
           then match lowerTrim (body_method req) with
                | Some m => Some (Some m) | None => None end
           else Some None) = Some m0
          /\ match m0 with
             | Some m => if Js.is_empty m then None else Some m
             | None => None
             end = submittedMethod (body_method req)) as (m0 & -> & Hsub).
        { destruct Hm as [Hf | [m Hm]].
          - rewrite Hf. exists None. split; [done|].
            destruct (body_method req) as [| |[]|y|[|c m]]; done.
          - rewrite Hm. simpl. destruct m as [|c m]; [by exists None|].
            simpl. eexists. split; [done|]. done. }
        rewrite (bool_decide_eq_true_2 _ Hin). simpl.
        rewrite (findById_present _ _ _ Hl), Hsub.
        by rewrite (findOneAndUpdate_hit _ _ _ _ o Hl eq_refl).
      * left. split; [done|]. unfold updateOrderPayment. rewrite Hb. simpl.
        rewrite (bool_decide_eq_true_2 _ Hin). simpl. rewrite (findById_absent _ _ Hl).
        destruct Hm as [-> | [m ->]]; simpl.
        -- by destruct (castsToObjectId _).
        -- destruct (negb (Js.is_empty m)); by destruct (castsToObjectId _).
    + left. split; [done|].
      apply (updateOrderPayment_invalid req env db (Js.trim (Js.toLowerCase s)));
        [by rewrite Hb|done..].
  - left. split; [done|]. split; [done|].
    unfold updateOrderPayment. rewrite Hb. simpl. rewrite Ht.
    destruct (body_method req) as [| |[]|y|m]; try done. by destruct (Hns m).
Qed.

Lemma cancelOrder_cases req (db : Store) :
  (db !! params_id req = None
   /\ cancelOrder req db
      = (if castsToObjectId (params_id req)
         then Sent (failure 404 "Order not found or cannot be canceled" [])
         else Thrown "CastError", db))
  \/ (exists o,
        db !! params_id req = Some o /\ terminal (status o)
        /\ cancelOrder req db
           = (Sent (failure 404 "Order not found or cannot be canceled" []), db))
  \/ exists o,
       db !! params_id req = Some o /\ ~ terminal (status o)
       /\ cancelOrder req db
          = (Sent (ok 200 "Order canceled" (IdOf (params_id req))),
             <[params_id req := applySet (setStatus "canceled") o]> db).
Proof.
  destruct (db !! params_id req) as [o|] eqn:Hl.
  - right. destruct (cancelable o) eqn:Hc.
    + right. exists o. assert (~ terminal (status o)) as Hn.
      { intros Ht. apply cancelable_terminal in Ht. congruence. }
      repeat split; [done|]. by apply cancelOrder_open.
    + apply cancelable_terminal in Hc. left. exists o.
      repeat split; [done|]. by apply cancelOrder_closed with o.
  - left. split; [done|]. by apply cancelOrder_unknown.
Qed.

(** ** The update handlers: what they leave alone *)

(** X7: [updateOrderStatus], [updateOrderPayment] and [cancelOrder]
    write only when they answer 200: after any other answer, and after a
    throw, the collection is as it was. *)
Theorem updates_write_only_on_200 req env (db : Store) :
  ((updateOrderStatus req db).2 = db
   \/ exists r, (updateOrderStatus req db).1 = Sent r /\ code r = 200)
  /\ ((updateOrderPayment req env db).2 = db
      \/ exists r, (updateOrderPayment req env db).1 = Sent r /\ code r = 200)
  /\ ((cancelOrder req db).2 = db
      \/ exists r, (cancelOrder req db).1 = Sent r /\ code r = 200).
Proof.
  split; [|split].
  - destruct (updateOrderStatus_cases req db)
      as [[_ ->]|[[_ ->]|(o & st & _ & _ & _ & ->)]]; [by left..|].
    right. by eexists.
  - destruct (updateOrderPayment_cases req env db)
      as [[_ ->]|(s & _ & [(_ & _ & ->)|[_ [[_ ->]|[_ [[_ ->]|(o & _ & E)]]]]])];
      [by left..|].
    simpl in E. rewrite E. right. by eexists.
  - destruct (cancelOrder_cases req db)
      as [[_ ->]|[(o & _ & _ & ->)|(o & _ & _ & ->)]]; [by left..|].
    right. by eexists.
Qed.



(** ** [updateOrderPayment]: time stamps, method, and when it throws *)

(** X9: a payment update stamps [paidAt] with the current time exactly
    when the status becomes paid and [refundedAt] exactly when it becomes
    refunded, and leaves the other stamp as it was; the method is
    replaced by the submitted one, lower-cased and trimmed, and kept when
    none (or a blank one) is submitted. *)
Theorem updateOrderPayment_stamps req env (db : Store) o s :
  db !! params_id req = Some o ->
  body_status req = Js.Str s ->
  Js.trim (Js.toLowerCase s) ∈ validPaymentStatuses ->
  methodUsable (body_method req) ->
  exists resp o',
    updateOrderPayment req env db = (Sent resp, <[params_id req := o']> db)
    /\ paidAt (payment o')
       = (if bool_decide (Js.trim (Js.toLowerCase s) = "paid")
          then Some (now env) else paidAt (payment o))
    /\ refundedAt (payment o')
       = (if bool_decide (Js.trim (Js.toLowerCase s) = "refunded")
          then Some (now env) else refundedAt (payment o))
    /\ pay_method (payment o')
       = match submittedMethod (body_method req) with
         | Some m => Some m
         | None => pay_method (payment o)
         end.
Proof.
  intros Hl Hb Hin Hm.
  destruct (updateOrderPayment_cases req env db)
    as [[Hns _]|(s' & Hb' & [(Ht & Hns & _)|[_ [[Hout _]|[_ [[Hnone _]|(o0 & Hl0 & E)]]]]])].
  - by destruct (Hns s).
  - destruct Hm as [Hf|[m Hm]]; [congruence|by destruct (Hns m)].
  - assert (s' = s) as -> by congruence. done.
  - congruence.
  - assert (s' = s) as -> by congruence. assert (o0 = o) as -> by congruence.
    simpl in E. eexists _, _. split; [exact E|].
    destruct o as [? ? ? ? ? ? [] ? ?]; simpl.
    repeat split; repeat case_bool_decide; try done; congruence.
Qed.

(** X10: [updateOrderPayment] throws exactly when the status is not a
    string, or the method is a truthy value that is not a string (it
    calls [toLowerCase] on them before any check). *)
Theorem updateOrderPayment_throws_iff req env (db : Store) :
  (exists e, (updateOrderPayment req env db).1 = Thrown e)
  <-> (forall s, body_status req <> Js.Str s)
      \/ (Js.truthy (body_method req) = true /\ forall m, body_method req <> Js.Str m).
Proof.
  destruct (updateOrderPayment_cases req env db)
    as [[Hns E]|(s & Hb & [(Ht & Hns & E)|[Hm [[_ E]|[_ [[_ E]|(o & _ & E)]]]]])];
    simpl in E; rewrite E; simpl.
  - split; [by left|by eexists].
  - split; [by right|by eexists].
  - split; [by intros [e He]|]. intros [Hns|[Ht Hns]]; [by destruct (Hns s)|].
    destruct Hm as [Hf|[m Hm]]; [congruence|by destruct (Hns m)].
  - split; [by intros [e He]|]. intros [Hns|[Ht Hns]]; [by destruct (Hns s)|].
    destruct Hm as [Hf|[m Hm]]; [congruence|by destruct (Hns m)].
  - split; [by intros [e He]|]. intros [Hns|[Ht Hns]]; [by destruct (Hns s)|].
    destruct Hm as [Hf|[m Hm]]; [congruence|by destruct (Hns m)].
Qed.

(** ** Sequences of operations *)

(** X11: serving an order and then marking it paid completes it;
    marking it paid first and serving it afterwards leaves it served: the
    promotion to completed is made by the payment update only. *)
Theorem serve_and_pay served paid env (db : Store) o :
  db !! params_id served = Some o ->
  params_id paid = params_id served ->
  body_status served = Js.Str "served" ->
  body_status paid = Js.Str "paid" ->
  methodUsable (body_method paid) ->
  (exists o2,
     (updateOrderPayment paid env (updateOrderStatus served db).2).2 !! params_id served
     = Some o2
     /\ status o2 = "completed" /\ pay_status (payment o2) = "paid"
     /\ sameButStatusAndPayment o o2)
  /\ (exists o2,
        (updateOrderStatus served (updateOrderPayment paid env db).2).2 !! params_id served
        = Some o2
        /\ status o2 = "served" /\ pay_status (payment o2) = "paid"
        /\ sameButStatusAndPayment o o2).
Proof.
  intros Hl Hid Hs Hp Hm.
  assert ("served" ∈ orderStatuses) as Hserved
    by (apply (bool_decide_eq_true_1 _); reflexivity).
  assert ("paid" ∈ validPaymentStatuses) as Hpaid
    by (apply (bool_decide_eq_true_1 _); reflexivity).
  assert (lowerTrim (body_status paid) = Some "paid") as Hlt by (by rewrite Hp).
  split.
  - rewrite (updateOrderStatus_hit served db o "served" Hl Hs Hserved). cbn [snd].
    destruct (applySet_setStatus "served" o) as [Hst Hsame].
    set (o1 := applySet (setStatus "served") o) in *.
    assert (<[params_id served := o1]> db !! params_id paid = Some o1) as Hl1
      by (rewrite Hid; apply lookup_insert_eq).
    destruct (updateOrderPayment_found paid env _ o1 "paid" Hl1 Hlt Hpaid Hm) as [m ->].
    cbn [snd]. rewrite Hid, lookup_insert_eq.
    destruct (applySet_updateData "paid" m env o1) as (Hsame2 & Hpay & Hstatus).
    exists (applySet (updateData "paid" m (status o1) env) o1).
    split; [reflexivity|]. rewrite Hstatus, Hst. repeat split; try done.
    all: unfold sameButStatus, sameButStatusAndPayment in *; intuition congruence.
  - destruct (updateOrderPayment_found paid env db o "paid") as [m ->];
      [by rewrite Hid|done..|].
    cbn [snd]. destruct (applySet_updateData "paid" m env o) as (Hsame1 & Hpay & _).
    set (o1 := applySet (updateData "paid" m (status o) env) o) in *.
    assert (<[params_id paid := o1]> db !! params_id served = Some o1) as Hl1
      by (rewrite Hid; apply lookup_insert_eq).
    rewrite (updateOrderStatus_hit served _ o1 "served" Hl1 Hs Hserved). cbn [snd].
    rewrite lookup_insert_eq.
    destruct (applySet_setStatus "served" o1) as [Hst Hsame2].
    exists (applySet (setStatus "served") o1).
    split; [reflexivity|]. split; [done|].
    unfold sameButStatus, sameButStatusAndPayment in *. intuition congruence.
Qed.

(** X12: canceling is answered 200 at most once in a row: whatever the
    first [cancelOrder] did, a second one on the same id changes nothing
    and answers 404, unless the id names no order and cannot be cast to
    an ObjectId, in which case both end in the CastError. *)
Theorem cancelOrder_twice req (db : Store) :
  let db1 := (cancelOrder req db).2 in
  (cancelOrder req db1).2 = db1
  /\ (forall r, (cancelOrder req db1).1 = Sent r ->
      r = failure 404 "Order not found or cannot be canceled" [])
  /\ (castsToObjectId (params_id req) = true \/ is_Some (db !! params_id req) ->
      cancelOrder req db1
      = (Sent (failure 404 "Order not found or cannot be canceled" []), db1)).
Proof.
  intros db1.
  assert (cancelOrder req db1
          = (if castsToObjectId (params_id req) || bool_decide (is_Some (db !! params_id req))
             then Sent (failure 404 "Order not found or cannot be canceled" [])
             else Thrown "CastError", db1)) as E1.
  { subst db1.
    destruct (cancelOrder_cases req db)
      as [[Hl E]|[(o & Hl & Ht & E)|(o & Hl & Ht & E)]]; rewrite E; cbn [snd].
    - rewrite (cancelOrder_unknown _ _ Hl), Hl.
      rewrite (bool_decide_eq_false_2 (is_Some None)) by (by intros [? ?]).
      by rewrite orb_false_r.
    - rewrite (cancelOrder_closed _ _ o Hl Ht), Hl.
      rewrite (bool_decide_eq_true_2 (is_Some (Some o))) by done.
      by rewrite orb_true_r.
    - rewrite (cancelOrder_closed _ _ (applySet (setStatus "canceled") o)).
      + rewrite Hl, (bool_decide_eq_true_2 (is_Some (Some o))) by done.
        by rewrite orb_true_r.
      + apply lookup_insert_eq.
      + destruct (applySet_setStatus "canceled" o) as [-> _]. by right. }
  rewrite E1. split; [done|]. split.
  - intros r. cbn [fst]. destruct (_ || _); [by intros [= <-]|done].
  - intros Hc.
    assert (castsToObjectId (params_id req) || bool_decide (is_Some (db !! params_id req))
            = true) as ->; [|done].
    destruct Hc as [-> | Hs]; [done|].
    rewrite (bool_decide_eq_true_2 _ Hs). by rewrite orb_true_r.
Qed.

(** ** Invariants of the collection *)

Lemma statusesKnown_setStatus st (o : Order) :
  st ∈ orderStatuses -> statusesKnown o -> statusesKnown (applySet (setStatus st) o).
Proof.
  intros Hin [_ Hp]. destruct (applySet_setStatus st o) as [Hst Hsame].
  split; [by rewrite Hst|]. destruct Hsame as (_ & _ & _ & _ & _ & -> & _). done.
Qed.

(** X13: the statuses stay within their enumerations (the six order
    statuses, the four payment statuses) under every handler, although
    the updates are run without schema validation; a new order starts
    with the schema's default payment, which has to be one of the four. *)
Theorem statuses_stay_known req env (db : Store) :
  pay_status defaultPayment ∈ validPaymentStatuses ->
  map_Forall (fun _ => statusesKnown) db ->
  map_Forall (fun _ => statusesKnown) (createOrder req env db).2
  /\ map_Forall (fun _ => statusesKnown) (updateOrderStatus req db).2
  /\ map_Forall (fun _ => statusesKnown) (updateOrderPayment req env db).2
  /\ map_Forall (fun _ => statusesKnown) (cancelOrder req db).2.
Proof.
  intros Hdef Hdb. split; [|split; [|split]].
  - destruct (createOrder_cases req env db)
      as [E|[E|[(errs & _ & E)|[E|(nl & _ & _ & _ & E)]]]]; rewrite E; [done..|].
    simpl. apply map_Forall_insert_2; [|done]. split; [|done].
    apply (bool_decide_eq_true_1 _). reflexivity.
  - destruct (updateOrderStatus_cases req db)
      as [[_ ->]|[[_ ->]|(o & st & Hl & _ & Hin & ->)]]; [done..|].
    simpl. apply map_Forall_insert_2; [|done].
    apply statusesKnown_setStatus; [done|]. by apply (Hdb _ _ Hl).
  - destruct (updateOrderPayment_cases req env db)
      as [[_ ->]|(s & _ & [(_ & _ & ->)|[_ [[_ ->]|[Hin [[_ ->]|(o & Hl & E)]]]]])];
      [done..|].
    simpl in E. rewrite E. simpl. apply map_Forall_insert_2; [|done].
    destruct (Hdb _ _ Hl) as [Hst _].
    destruct (applySet_updateData (Js.trim (Js.toLowerCase s))
                (submittedMethod (body_method req)) env o) as (_ & Hp & Hs).
    split; [|by rewrite Hp]. rewrite Hs.
    destruct (_ && _); [|done]. apply (bool_decide_eq_true_1 _). reflexivity.
  - destruct (cancelOrder_cases req db)
      as [[_ ->]|[(o & _ & _ & ->)|(o & Hl & _ & ->)]]; [done..|].
    simpl. apply map_Forall_insert_2; [|done].
    apply statusesKnown_setStatus; [|by apply (Hdb _ _ Hl)].
    apply (bool_decide_eq_true_1 _). reflexivity.
Qed.

(** X14: every stored order has at least one line item, and its items
    have a non-empty name, a price above 0 and a quantity of at least 1:
    [createOrder] stores only such orders and no update changes the
    items. *)
Theorem items_stay_sound req env (db : Store) :
  map_Forall (fun _ => itemsSound) db ->
  map_Forall (fun _ => itemsSound) (createOrder req env db).2
  /\ map_Forall (fun _ => itemsSound) (updateOrderStatus req db).2
  /\ map_Forall (fun _ => itemsSound) (updateOrderPayment req env db).2
  /\ map_Forall (fun _ => itemsSound) (cancelOrder req db).2.
Proof.
  intros Hdb.
  assert (forall u id o, db !! id = Some o ->
            map_Forall (fun _ => itemsSound) (<[id := applySet u o]> db)) as Hset.
  { intros u id o Hl. apply map_Forall_insert_2; [|done].
    pose proof (Hdb _ _ Hl) as Ho. by destruct o. }
  split; [|split; [|split]].
  - destruct (createOrder_cases req env db)
      as [E|[E|[(errs & _ & E)|[E|(nl & Hne & Hv & _ & E)]]]]; rewrite E; [done..|].
    simpl. by apply map_Forall_insert_2.
  - destruct (updateOrderStatus_cases req db)
      as [[_ ->]|[[_ ->]|(o & st & Hl & _ & _ & ->)]]; [done..|]. by apply Hset.
  - destruct (updateOrderPayment_cases req env db)
      as [[_ ->]|(s & _ & [(_ & _ & ->)|[_ [[_ ->]|[_ [[_ ->]|(o & Hl & E)]]]]])];
      [done..|].
    simpl in E. rewrite E. by apply Hset.
  - destruct (cancelOrder_cases req db)
      as [[_ ->]|[(o & _ & _ & ->)|(o & Hl & _ & ->)]]; [done..|].
    by apply Hset.
Qed.

(** ** [listOrders]: the page *)

Lemma window_sorted {A} (R : A -> A -> Prop) n k (l : list A) :
  StronglySorted R l -> StronglySorted R (take n (drop k l)).
Proof.
  intros Hs. rewrite <- (take_drop k l) in Hs.
  apply StronglySorted_app in Hs as (_ & _ & Hs).
  rewrite <- (take_drop n (drop k l)) in Hs.
  by apply StronglySorted_app in Hs as (_ & Hs & _).
Qed.

Lemma find_unique_ids q (db : Store) : NoDup (sortNewestFirst (find q db)).*1.
Proof.
  rewrite sortNewestFirst_perm. unfold find.
  eapply sublist_NoDup; [apply (NoDup_fst_map_to_list db)|].
  apply fmap_sublist, sublist_filter.
Qed.

Lemma to_Z_of_Z z : Js.to_Z (Js.of_Z z) = z.
Proof.
  unfold Js.to_Z, Js.of_Z, Js.signed. rewrite Z.mul_1_r, N2Z.inj_abs_N.
  destruct (z <? 0)%Z eqn:E; [apply Z.ltb_lt in E|apply Z.ltb_ge in E]; lia.
Qed.

Lemma truthy_of_Z d : d <> 0%Z -> Js.truthy_number (Js.of_Z d) = true.
Proof.
  intros Hd. unfold Js.of_Z. simpl. apply negb_true_iff, N.eqb_neq. lia.
Qed.

(** X15: page and limit are never 0 and never [NaN]: an absent or
    unreadable parameter, and one that reads as 0, gives the default (1
    and 20 in [listOrders]); any other gives what [parseInt] reads, a
    non-zero integer when it is finite. *)
Theorem pagination_parameter p d :
  d <> 0%Z ->
  Js.truthy_number (paramNumber p d) = true
  /\ paramNumber None d = Js.of_Z d
  /\ (Js.truthy_number (Js.parseInt (param p)) = false -> paramNumber p d = Js.of_Z d)
  /\ (Js.truthy_number (Js.parseInt (param p)) = true ->
      paramNumber p d = Js.parseInt (param p))
  /\ (Js.finite (paramNumber p d) = true -> intParam p d <> 0%Z)
  /\ intParam None d = d.
Proof.
  intros Hd. pose proof (truthy_of_Z d Hd) as Ht.
  assert (Js.truthy_number (paramNumber p d) = true) as Hp.
  { unfold paramNumber, Js.or_number.
    by destruct (Js.truthy_number (Js.parseInt (param p))) eqn:E. }
  split; [exact Hp|]. split; [done|]. split; [|split; [|split]].
  - intros E. unfold paramNumber, Js.or_number. by rewrite E.
  - intros E. unfold paramNumber, Js.or_number. by rewrite E.
  - intros Hf. unfold intParam.
    assert (paramNumber p d = Js.of_Z d
            \/ paramNumber p d = Js.parseInt_string (Js.toString (param p))) as [E|E].
    { unfold paramNumber, Js.or_number, Js.parseInt.
      destruct (Js.truthy_number (Js.parseInt_string _)); [by right|by left]. }
    + rewrite E. by rewrite to_Z_of_Z.
    + rewrite E in Hp, Hf |- *.
      destruct (parseInt_string_shape (Js.toString (param p)))
        as [E'|[[neg E']|(neg & m & E')]]; rewrite E' in Hp, Hf |- *; try done.
      simpl in Hp. apply negb_true_iff, N.eqb_neq in Hp.
      unfold Js.to_Z, Js.signed. destruct neg; lia.
  - unfold intParam. change (paramNumber None d) with (Js.of_Z d). apply to_Z_of_Z.
Qed.

(** X16: a page of [listOrders] holds at most |limit| orders, newest
    first, and no order twice. *)
Theorem listOrders_page_shape req (db : Store) u :
  user req = Some u ->
  listOrders req db = (Sent (failure 500 "Failed to retrieve orders" []), db)
  \/ exists orders page limit total pages,
       listOrders req db
       = (Sent (ok 200 "Orders retrieved" (Page orders page limit total pages)), db)
       /\ (Z.of_nat (length orders) <= Z.abs limit)%Z
       /\ StronglySorted notOlder orders
       /\ NoDup orders.*1.
Proof.
  intros Hu. destruct (listOrders_page_exact req db u Hu) as [[_ E]|[_ E]]; [by left|].
  right. eexists _, _, _, _, _. split; [exact E|]. split; [|split].
  - rewrite length_take. lia.
  - apply window_sorted, sortNewestFirst_sorted.
  - eapply sublist_NoDup; [apply (find_unique_ids (listQuery u req) db)|].
    apply fmap_sublist. etransitivity; [apply sublist_take|apply sublist_drop].
Qed.

(** X17: for a user who is not staff or admin the total is the number
    of that user's own orders, whatever filters the request carries. *)
Theorem listOrders_own_total req (db : Store) u :
  user req = Some u ->
  ~ elevated u ->
  listOrders req db = (Sent (failure 500 "Failed to retrieve orders" []), db)
  \/ exists orders page limit pages,
       listOrders req db
       = (Sent (ok 200 "Orders retrieved"
                  (Page orders page limit
                     (Z.of_nat (length (filter (fun d => customerId d.2 = Some (user_id u))
                                          (map_to_list db))))
                     pages)), db).
Proof.
  intros Hu He. rewrite <- elevated_role in He.
  destruct (listOrders_page_exact req db u Hu) as [[_ E]|[_ E]]; [by left|].
  right. eexists _, _, _, _. rewrite E. unfold find. repeat f_equal.
  apply list_filter_iff. intros [id o]. simpl.
  rewrite matches_listQuery, (bool_decide_eq_false_2 _ He).
  apply bool_decide_eq_true.
Qed.

Lemma matches_visibleTo u req (o : Order) :
  matches (listQuery u req) o = visibleTo u req o.
Proof. apply matches_listQuery. Qed.

(** X18: without [page] and [limit] the answer is the first page of 20:
    it is never 500, and when at most 20 orders are visible to the user
    the page holds every one of them. *)
Theorem listOrders_default_page req (db : Store) u :
  user req = Some u ->
  query_page req = None ->
  query_limit req = None ->
  exists orders total pages,
    listOrders req db
    = (Sent (ok 200 "Orders retrieved" (Page orders 1 20 total pages)), db)
    /\ total = Z.of_nat (length (filter (fun d => visibleTo u req d.2 = true)
                                   (map_to_list db)))
    /\ ((total <= 20)%Z ->
        forall id o, (id, o) ∈ orders <-> db !! id = Some o /\ visibleTo u req o = true).
Proof.
  intros Hu Hp Hl.
  destruct (listOrders_page_exact req db u Hu) as [[Hneg _]|[_ E]].
  { exfalso. unfold refusedPage in Hneg. rewrite Hp, Hl in Hneg. by vm_compute in Hneg. }
  rewrite Hp, Hl in E.
  change (intParam None 1) with 1%Z in E. change (intParam None 20) with 20%Z in E.
  change (Z.to_nat ((1 - 1) * 20)) with 0 in E. change (Z.to_nat (Z.abs 20)) with 20 in E.
  rewrite drop_0 in E.
  assert (find (listQuery u req) db
          = filter (fun d => visibleTo u req d.2 = true) (map_to_list db)) as Hfind.
  { unfold find. apply list_filter_iff. intros [id o]. simpl.
    by rewrite matches_visibleTo. }
  eexists _, _, _. split; [exact E|]. split; [by rewrite Hfind|].
  intros Hle id o. rewrite take_ge.
  - rewrite elem_of_sortNewestFirst, elem_of_find. by rewrite matches_visibleTo.
  - rewrite sortNewestFirst_perm. lia.
Qed.

Lemma ceilDiv_bounds a b :
  (0 < b)%Z -> ((ceilDiv a b - 1) * b < a <= ceilDiv a b * b)%Z.
Proof.
  intros Hb. unfold ceilDiv.
  pose proof (Z.mul_div_le (- a) b Hb). pose proof (Z.mul_succ_div_gt (- a) b Hb). lia.
Qed.

(** X19: with a positive limit, [pages] is the number of pages of that
    size needed for [total] orders: one page fewer would not hold them. *)
Theorem listOrders_pages req (db : Store) u :
  user req = Some u ->
  (0 < intParam (query_limit req) 20)%Z ->
  listOrders req db = (Sent (failure 500 "Failed to retrieve orders" []), db)
  \/ exists orders page limit total pages,
       listOrders req db
       = (Sent (ok 200 "Orders retrieved" (Page orders page limit total pages)), db)
       /\ ((pages - 1) * limit < total <= pages * limit)%Z.
Proof.
  intros Hu Hpos. destruct (listOrders_page_exact req db u Hu) as [[_ E]|[_ E]]; [by left|].
  right. eexists _, _, _, _, _. split; [exact E|]. by apply ceilDiv_bounds.
Qed.

(** ** Unknown orders, a failing save, and the handler's second check *)


(** X21: when [order.save()] rejects, a request with valid items is
    answered 500 "Failed to place order" and nothing is stored. *)
Theorem createOrder_save_rejected req env (db : Store) l normalized :
  body_items req = ItemsArray l ->
  l <> [] ->
  normalizeItems l = Some normalized ->
  Forall validItem normalized ->
  save_ok env = false ->
  createOrder req env db = (Sent (failure 500 "Failed to place order" []), db).
Proof.
  intros Hb Hne Hn Hv Hs. apply (createOrder_save_fails req env db l normalized); try done.
  unfold save. by rewrite Hs.
Qed.

(** X22: a request that passes [validateOrderPayment] is never answered
    400 by [updateOrderPayment]; when its status is a string, it is one
    of the four as submitted and lower-casing and trimming leave it as it
    is, so the handler's own "Invalid payment status" check cannot fail. *)
Theorem validated_payment_status req env (db : Store) :
  validateOrderPayment req = [] ->
  (forall s, body_status req = Js.Str s ->
     s ∈ validPaymentStatuses /\ lowerTrim (body_status req) = Some s)
  /\ forall r, (updateOrderPayment req env db).1 = Sent r -> code r <> 400.
Proof.
  intros Hv. unfold validateOrderPayment, check in Hv.
  destruct (Validator.isIn _ _) eqn:E; [|done].
  apply isIn_scalar in E as (s & Hs & Hin).
  2: by repeat constructor.
  2,3: intros Hx; apply (bool_decide_eq_true_2 _) in Hx; by vm_compute in Hx.
  pose proof (lowerTrim_valid s Hin) as Hlt.
  split.
  { intros s' Hs'. assert (s' = s) as -> by congruence. by rewrite Hs. }
  assert (Js.trim (Js.toLowerCase s) = s) as Hid by (by injection Hlt).
  intros r Hr.
  destruct (updateOrderPayment_cases req env db)
    as [[_ E]|(s' & Hb' & [(_ & _ & E)|[_ [[Hout _]|[_ [[_ E]|(o & _ & E)]]]]])];
    try (simpl in E; rewrite E in Hr; injection Hr as <-;
         first [done|by destruct (castsToObjectId _)]).
  - by rewrite E in Hr.
  - by rewrite E in Hr.
  - assert (s' = s) as -> by congruence. by rewrite Hid in Hout.
Qed.

(** ** The menu page *)

(** X23: with no category selected and an empty search box every
    loaded item is shown, in the order in which it was loaded. *)
Theorem filteredItems_unfiltered menuItems :
  Menu.filteredItems "" "" menuItems = menuItems.
Proof.
  unfold Menu.filteredItems. induction menuItems as [|it l IH]; [done|].
  cbn [List.filter].
  change (Menu.matchesCategory "" it && Menu.matchesSearch "" it) with true.
  cbv iota. by rewrite IH.
Qed.

Lemma toLowerCase_empty s : Js.is_empty (Js.toLowerCase s) = Js.is_empty s.
Proof. by destruct s. Qed.

(** X24: the search does not depend on the case of what is typed: two
    search texts that differ in case only show the same items. *)
Theorem filteredItems_case_insensitive selectedCategory search1 search2 menuItems :
  Js.toLowerCase search1 = Js.toLowerCase search2 ->
  Menu.filteredItems selectedCategory search1 menuItems
  = Menu.filteredItems selectedCategory search2 menuItems.
Proof.
  intros Hl. unfold Menu.filteredItems, Menu.matchesSearch.
  assert (Js.is_empty search1 = Js.is_empty search2) as ->
    by (by rewrite <- (toLowerCase_empty search1), Hl, toLowerCase_empty).
  by rewrite Hl.
Qed.

Lemma includes_self s : Menu.includes s s = true.
Proof.
  destruct s as [|c s]; [done|]. simpl.
  destruct (ascii_dec c c); [|done].
  assert (String.prefix s s = true) as ->; [|done].
  clear. induction s as [|c s IH]; [done|]. simpl. by destruct (ascii_dec c c).
Qed.

(** X25: typing an item's name, in any case, shows that item (when it
    belongs to the selected category). *)
Theorem filteredItems_finds_name selectedCategory search menuItems it :
  it ∈ menuItems ->
  Menu.matchesCategory selectedCategory it = true ->
  Js.toLowerCase search = Js.toLowerCase (Menu.item_name it) ->
  it ∈ Menu.filteredItems selectedCategory search menuItems.
Proof.
  intros Hin Hc Hs. unfold Menu.filteredItems.
  apply list_elem_of_In, filter_In. split; [by apply list_elem_of_In|].
  rewrite Hc. unfold Menu.matchesSearch. rewrite Hs, includes_self.
  by rewrite orb_true_r.
Qed.

End Further.

(** * Further instances on the sample data *)

Lemma sampleDb_statusesKnown : map_Forall (fun _ => statusesKnown) sampleDb.
Proof.
  unfold sampleDb. apply map_Forall_insert_2; [|apply map_Forall_singleton];
    split; apply (bool_decide_eq_true_1 _); reflexivity.
Qed.

Lemma sampleDb_itemsSound : map_Forall (fun _ => itemsSound) sampleDb.
Proof.
  assert (validItem tea) as Htea by (repeat split; discriminate).
  unfold sampleDb. apply map_Forall_insert_2; [|apply map_Forall_singleton];
    (split; [discriminate|by repeat constructor]).
Qed.

Lemma createOrder_null_element_witness :
  @createOrder sampleHelpers (orderRequest [Nullish]) sampleEnv sampleDb
  = (Thrown "TypeError", sampleDb)
  /\ exists errs,
       errs <> []
       /\ @postOrder sampleHelpers (orderRequest [Nullish]) sampleEnv sampleDb
          = (Sent (failure 400 "Validation failed" errs), sampleDb).
Proof.
  apply (@createOrder_null_element sampleHelpers (orderRequest [Nullish]) sampleEnv
           sampleDb [Nullish]).
  - reflexivity.
  - apply elem_of_cons. left. reflexivity.
Defined.

Lemma createOrder_only_adds_witness :
  (@createOrder sampleHelpers (orderRequest [Nullish]) sampleEnv sampleDb).2 !! orderA
  = Some (sampleOrder "served" (Some bobId)).
Proof.
  apply (proj1 (@createOrder_only_adds sampleHelpers (orderRequest [Nullish]) sampleEnv
                  sampleDb)).
  exact sampleDb_served.
Defined.

Lemma createOrder_reports_index_witness :
  let blank := {| raw_menuItemId := Js.Str teaId; raw_name := Js.Str "  ";
                  raw_price := Js.Num (Js.of_Z 3); raw_quantity := Js.Num Js.one;
                  raw_qty := Js.Undefined; raw_note := Js.Undefined |} in
  let l := [Obj (rawTea (Js.Num (Js.of_Z 3)) (Js.Num Js.one)); Obj blank] in
  exists errs,
    @createOrder sampleHelpers (orderRequest l) sampleEnv sampleDb
    = (Sent (failure 400 "Validation failed" errs), sampleDb)
    /\ "Item at index 1 is missing a name" ∈ errs.
Proof.
  intros blank l.
  refine (@createOrder_reports_index sampleHelpers (orderRequest l) sampleEnv sampleDb
            l (normalizeItem (rawTea (Js.Num (Js.of_Z 3)) (Js.Num Js.one))
               :: normalizeItem blank :: []) 1 blank _ _ _ _); reflexivity.
Defined.

Lemma validated_quantity_witness :
  Js.leb Js.one (qty (normalizeItem (rawTea (Js.Num (Js.of_Z 3)) (Js.Str "2")))) = true
  /\ qty (normalizeItem (rawTea (Js.Num (Js.of_Z 3)) (Js.Str "2"))) = Js.of_Z 2.
Proof.
  destruct (@validated_quantity sampleHelpers
              (orderRequest [Obj (rawTea (Js.Num (Js.of_Z 3)) (Js.Str "2"))])
              [Obj (rawTea (Js.Num (Js.of_Z 3)) (Js.Str "2"))]
              (rawTea (Js.Num (Js.of_Z 3)) (Js.Str "2"))) as [Hle Hq].
  - vm_compute. reflexivity.
  - reflexivity.
  - apply elem_of_cons. left. reflexivity.
  - split; [exact Hle|]. rewrite Hq.
    + vm_compute. reflexivity.
    + right. exists "2". reflexivity.
Defined.

Lemma cancelOrder_twice_witness :
  let db1 := (@cancelOrder sampleHelpers (idRequest (Some customer) orderA) sampleDb).2 in
  @cancelOrder sampleHelpers (idRequest (Some customer) orderA) db1
  = (Sent (failure 404 "Order not found or cannot be canceled" []), db1).
Proof.
  apply (@cancelOrder_twice sampleHelpers (idRequest (Some customer) orderA) sampleDb).
  left. reflexivity.
Defined.


Lemma updateOrderPayment_stamps_witness :
  exists resp o',
    @updateOrderPayment sampleHelpers (paymentRequest orderA "Refunded ") sampleEnv sampleDb
    = (Sent resp, <[orderA := o']> sampleDb)
    /\ paidAt (payment o') = None
    /\ refundedAt (payment o') = Some 1700000000000%Z
    /\ pay_method (payment o') = Some "cash".
Proof.
  apply (@updateOrderPayment_stamps sampleHelpers (paymentRequest orderA "Refunded ")
           sampleEnv sampleDb (sampleOrder "served" (Some bobId)) "Refunded ").
  - exact sampleDb_served.
  - reflexivity.
  - apply (bool_decide_eq_true_1 _). reflexivity.
  - right. exists "Cash". reflexivity.
Defined.

Lemma updateOrderPayment_throws_iff_witness :
  exists e,
    (@updateOrderPayment sampleHelpers
       (sampleRequest (Some staff) orderA (Js.Str "paid") (Js.Num (Js.of_Z 5)) ItemsAbsent)
       sampleEnv sampleDb).1 = Thrown e.
Proof.
  apply (proj2 (@updateOrderPayment_throws_iff sampleHelpers
                  (sampleRequest (Some staff) orderA (Js.Str "paid") (Js.Num (Js.of_Z 5))
                     ItemsAbsent) sampleEnv sampleDb)).
  right. split; [reflexivity|]. intros m. discriminate.
Defined.

Lemma serve_and_pay_witness :
  let served := sampleRequest (Some staff) orderA (Js.Str "served") Js.Undefined
                  ItemsAbsent in
  let paid := paymentRequest orderA "paid" in
  (exists o2,
     (@updateOrderPayment sampleHelpers paid sampleEnv
        (updateOrderStatus served sampleDb).2).2 !! orderA = Some o2
     /\ status o2 = "completed")
  /\ (exists o2,
        (@updateOrderStatus sampleHelpers served
           (updateOrderPayment paid sampleEnv sampleDb).2).2 !! orderA = Some o2
        /\ status o2 = "served").
Proof.
  intros served paid.
  destruct (@serve_and_pay sampleHelpers served paid sampleEnv sampleDb
              (sampleOrder "served" (Some bobId)))
    as [(o2 & Hl2 & Hs2 & _) (o3 & Hl3 & Hs3 & _)].
  - exact sampleDb_served.
  - reflexivity.
  - reflexivity.
  - reflexivity.
  - right. exists "Cash". reflexivity.
  - split; [exists o2|exists o3]; split; assumption.
Defined.

Lemma statuses_stay_known_witness :
  map_Forall (fun _ => statusesKnown)
    (@updateOrderPayment sampleHelpers (paymentRequest orderA "paid") sampleEnv sampleDb).2.
Proof.
  apply (@statuses_stay_known sampleHelpers (paymentRequest orderA "paid") sampleEnv
           sampleDb).
  - apply (bool_decide_eq_true_1 _). reflexivity.
  - exact sampleDb_statusesKnown.
Defined.

Lemma items_stay_sound_witness :
  map_Forall (fun _ => itemsSound)
    (@createOrder sampleHelpers
       (orderRequest [Obj (rawTea (Js.Num (Js.of_Z 3)) (Js.Num Js.one))]) sampleEnv
       sampleDb).2.
Proof.
  apply (@items_stay_sound sampleHelpers
           (orderRequest [Obj (rawTea (Js.Num (Js.of_Z 3)) (Js.Num Js.one))]) sampleEnv
           sampleDb).
  exact sampleDb_itemsSound.
Defined.

Lemma pagination_parameter_witness :
  Js.truthy_number (paramNumber (Some "0") 20) = true
  /\ paramNumber (Some "abc") 20 = Js.of_Z 20.
Proof.
  split.
  - apply (pagination_parameter (Some "0") 20). discriminate.
  - apply (pagination_parameter (Some "abc") 20); [discriminate|reflexivity].
Defined.

Lemma listOrders_page_shape_witness :
  @listOrders sampleHelpers (idRequest (Some staff) "") sampleDb
  = (Sent (failure 500 "Failed to retrieve orders" []), sampleDb)
  \/ exists orders page limit total pages,
       @listOrders sampleHelpers (idRequest (Some staff) "") sampleDb
       = (Sent (ok 200 "Orders retrieved" (Page orders page limit total pages)), sampleDb)
       /\ (Z.of_nat (length orders) <= Z.abs limit)%Z
       /\ StronglySorted notOlder orders
       /\ NoDup orders.*1.
Proof.
  apply (@listOrders_page_shape sampleHelpers (idRequest (Some staff) "") sampleDb staff).
  reflexivity.
Defined.

Lemma listOrders_own_total_witness :
  @listOrders sampleHelpers (idRequest (Some customer) "") sampleDb
  = (Sent (failure 500 "Failed to retrieve orders" []), sampleDb)
  \/ exists orders page limit pages,
       @listOrders sampleHelpers (idRequest (Some customer) "") sampleDb
       = (Sent (ok 200 "Orders retrieved"
                  (Page orders page limit
                     (Z.of_nat (length (filter (fun d => customerId d.2 = Some bobId)
                                          (map_to_list sampleDb))))
                     pages)), sampleDb).
Proof.
  apply (@listOrders_own_total sampleHelpers (idRequest (Some customer) "") sampleDb
           customer).
  - reflexivity.
  - intros [E|E]; discriminate E.
Defined.

Lemma listOrders_default_page_witness :
  exists orders total pages,
    @listOrders sampleHelpers (idRequest (Some customer) "") sampleDb
    = (Sent (ok 200 "Orders retrieved" (Page orders 1 20 total pages)), sampleDb)
    /\ total = Z.of_nat (length (filter (fun d => visibleTo customer
                                                    (idRequest (Some customer) "") d.2 = true)
                                   (map_to_list sampleDb)))
    /\ ((total <= 20)%Z ->
        forall id o,
          (id, o) ∈ orders
          <-> sampleDb !! id = Some o
              /\ visibleTo customer (idRequest (Some customer) "") o = true).
Proof.
  apply (@listOrders_default_page sampleHelpers (idRequest (Some customer) "") sampleDb
           customer); reflexivity.
Defined.

Lemma listOrders_pages_witness :
  @listOrders sampleHelpers (idRequest (Some staff) "") sampleDb
  = (Sent (failure 500 "Failed to retrieve orders" []), sampleDb)
  \/ exists orders page limit total pages,
       @listOrders sampleHelpers (idRequest (Some staff) "") sampleDb
       = (Sent (ok 200 "Orders retrieved" (Page orders page limit total pages)), sampleDb)
       /\ ((pages - 1) * limit < total <= pages * limit)%Z.
Proof.
  apply (@listOrders_pages sampleHelpers (idRequest (Some staff) "") sampleDb staff).
  - reflexivity.
  - reflexivity.
Defined.


Lemma createOrder_save_rejected_witness :
  let env := {| now := 1700000000000; fresh_id := orderC; order_number := "ORD-0042";
                save_ok := false |} in
  @createOrder sampleHelpers
    (orderRequest [Obj (rawTea (Js.Num (Js.Fin false 25 (-1))) (Js.Num (Js.of_Z 2)))])
    env sampleDb
  = (Sent (failure 500 "Failed to place order" []), sampleDb).
Proof.
  intros env.
  refine (@createOrder_save_rejected sampleHelpers _ env sampleDb
            [Obj (rawTea (Js.Num (Js.Fin false 25 (-1))) (Js.Num (Js.of_Z 2)))]
            [tea] _ _ _ _ _).
  - reflexivity.
  - discriminate.
  - vm_compute. reflexivity.
  - constructor; [|constructor]. unfold validItem. split; [discriminate|].
    split; reflexivity.
  - reflexivity.
Defined.

Lemma validated_payment_status_witness :
  ("failed" ∈ validPaymentStatuses
   /\ lowerTrim (body_status (paymentRequest orderA "failed")) = Some "failed")
  /\ forall r,
       (@updateOrderPayment sampleHelpers (paymentRequest orderA "failed") sampleEnv
          sampleDb).1 = Sent r ->
       code r <> 400.
Proof.
  destruct (@validated_payment_status sampleHelpers (paymentRequest orderA "failed")
              sampleEnv sampleDb eq_refl) as [Hs Hr].
  split; [|exact Hr]. apply (Hs "failed"). reflexivity.
Defined.

Lemma filteredItems_case_insensitive_witness :
  Menu.filteredItems "drinks" "CHAI" menuSample = Menu.filteredItems "drinks" "chai" menuSample.
Proof.
  apply filteredItems_case_insensitive. reflexivity.
Defined.

Lemma filteredItems_finds_name_witness :
  {| Menu.item_name := "Lemonade"; Menu.category := None; Menu.tags := None |}
  ∈ Menu.filteredItems "" "LEMONADE" menuSample.
Proof.
  apply filteredItems_finds_name.
  - apply elem_of_cons. right. apply elem_of_cons. left. reflexivity.
  - reflexivity.
  - reflexivity.
Defined.

Example filteredItems_samples :
  (length (Menu.filteredItems "drinks" "" menuSample),
   length (Menu.filteredItems "" "chai" menuSample),
   length (Menu.filteredItems "food" "" menuSample),
   length (Menu.filteredItems "" "MON" menuSample))
  = (1, 1, 0, 1).
Proof. vm_compute. reflexivity. Qed.
